(** * Scalene: a sampling CPU and memory profiler for Python

    A shallow embedding of [scalene/scalene.py] and the properties of its
    sampling engine: the location filter [should_trace], the three signal
    handlers, the lifecycle operations [start], [stop], [exit_handler] and
    the numeric part of [output_profiles].

    Conventions of the embedding:
    - Python [int] is [Z]; Python [float] is modelled by exact rationals [Q]
      (no rounding), and equality of floats by [Qeq]; the CPU arithmetic
      of the timer handler and of the report is modelled a second time
      with every floating-point operation rounded (the definitions whose
      names end in [_fl]);
    - the class attributes of [Scalene] are the fields of the record
      [Scalene]; what the operating system and the interpreter keep for the
      process (working directory, clock, signal dispositions, interval
      timer, the memo table of [lru_cache]) is the record [Process];
    - a Python exception is a value of type [exn]; a call that may raise
      returns [result A], and a signal handler leaves an [outcome]: the
      world in which it returned or the world in which it raised;
    - the readings of [time.process_time()] and the draws of
      [random.random()] are inputs of the handlers. *)

From Stdlib Require Import Ascii String QArith Lqa.
From stdpp Require Import base option list strings gmap fin_maps.

Local Open Scope string_scope.
Local Open Scope Q_scope.
Local Open Scope list_scope.

(** ** Exceptions *)

Inductive exn : Type :=
| IndexError
| AttributeError
| ValueError
| OSError
| ZeroDivisionError.

Inductive result (A : Type) : Type :=
| Ok (a : A)
| Raise (e : exn).
Arguments Ok {A} a.
Arguments Raise {A} e.

Definition bind {A B : Type} (r : result A) (k : A -> result B) : result B :=
  match r with
  | Ok a => k a
  | Raise e => Raise e
  end.

Notation "'try!' x ':=' c 'in' k" := (bind c (fun x => k))
  (at level 10, x pattern, c at level 100, k at level 200).

(** ** Python strings *)

Module pystr.

(** [needle in hay] *)
Fixpoint contains (needle hay : string) : bool :=
  String.prefix needle hay
  || match hay with
     | EmptyString => false
     | String _ hay' => contains needle hay'
     end.

(** [s.split(sep)] for a one-character separator. *)
Fixpoint split (sep : ascii) (s : string) : list string :=
  match s with
  | EmptyString => [EmptyString]
  | String c s' =>
      if bool_decide (c = sep) then EmptyString :: split sep s'
      else match split sep s' with
           | h :: t => String c h :: t
           | [] => [String c EmptyString]
           end
  end.

(** [sep.join(parts)] *)
Fixpoint join (sep : string) (parts : list string) : string :=
  match parts with
  | [] => EmptyString
  | [p] => p
  | p :: ps => p +:+ sep +:+ join sep ps
  end.

(** [s.rstrip(c)] *)
Fixpoint rstrip (c : ascii) (s : string) : string :=
  match s with
  | EmptyString => EmptyString
  | String a s' =>
      let r := rstrip c s' in
      if bool_decide (a = c) && bool_decide (r = EmptyString)
      then EmptyString else String a r
  end.

(** [s[:s.rfind(c)+1]] *)
Fixpoint upto_last (c : ascii) (s : string) : string :=
  match s with
  | EmptyString => EmptyString
  | String a s' =>
      if contains (String c EmptyString) s then String a (upto_last c s')
      else EmptyString
  end.

(** [s[s.rfind(c)+1:]] *)
Fixpoint after_last (c : ascii) (s : string) : string :=
  match s with
  | EmptyString => EmptyString
  | String a s' =>
      if contains (String c EmptyString) s then after_last c s' else s
  end.

(** [s.endswith(c)] for a one-character suffix. *)
Fixpoint endswith (c : ascii) (s : string) : bool :=
  match s with
  | EmptyString => false
  | String a EmptyString => bool_decide (a = c)
  | String _ s' => endswith c s'
  end.

(** [c * n] *)
Definition replicate (n : nat) (c : ascii) : string :=
  string_of_list_ascii (List.repeat c n).

End pystr.

(** ** [os.path] on POSIX, as [scalene.py] uses it *)

Module posixpath.

Definition sep : ascii := "/"%char.

Definition isabs (s : string) : bool := String.prefix "/" s.

(** [os.path.join(a, b)] *)
Definition join (a b : string) : string :=
  if String.prefix "/" b then b
  else if bool_decide (a = "") || pystr.endswith sep a then a +:+ b
       else a +:+ "/" +:+ b.

(** One round of the loop of [normpath] over the components. *)
Definition normpath_step (initial_slashes : nat) (new_comps : list string)
    (comp : string) : list string :=
  if bool_decide (comp = "") || bool_decide (comp = ".") then new_comps
  else if negb (bool_decide (comp = ".."))
          || (bool_decide (initial_slashes = 0%nat) && bool_decide (new_comps = []))
          || (negb (bool_decide (new_comps = []))
              && bool_decide (List.last new_comps "" = ".."))
       then new_comps ++ [comp]
       else List.removelast new_comps.

(** [os.path.normpath(path)] *)
Definition normpath (path : string) : string :=
  if bool_decide (path = "") then "."
  else
    let initial_slashes :=
      if String.prefix "/" path then
        if String.prefix "//" path && negb (String.prefix "///" path)
        then 2%nat else 1%nat
      else 0%nat in
    let comps := fold_left (normpath_step initial_slashes) (pystr.split sep path) [] in
    let path' := pystr.replicate initial_slashes sep +:+ pystr.join "/" comps in
    if bool_decide (path' = "") then "." else path'.

(** [os.path.abspath(path)], with the working directory [cwd] of the
    process. *)
Definition abspath (cwd path : string) : string :=
  normpath (if isabs path then path else join cwd path).

(** [os.path.dirname(p)] *)
Definition dirname (p : string) : string :=
  let head := pystr.upto_last sep p in
  if bool_decide (pystr.rstrip sep head = "") then head
  else pystr.rstrip sep head.

(** [os.path.basename(p)] *)
Definition basename (p : string) : string := pystr.after_last sep p.

End posixpath.


(** ** Signals and timers of the host (Linux and Mac OS X numbering) *)

Module signal.

Definition SIGHUP : Z := 1.
Definition SIGKILL : Z := 9.
Definition SIGSTOP : Z := 19.
Definition SIGXCPU : Z := 24.
Definition SIGVTALRM : Z := 26.
Definition SIGPROF : Z := 27.
Definition NSIG : Z := 65.

Definition ITIMER_REAL : Z := 0.
Definition ITIMER_VIRTUAL : Z := 1.
Definition ITIMER_PROF : Z := 2.

End signal.

(** The three handlers a signal can be bound to. *)
Inductive handler : Type :=
| cpu_handler
| malloc_handler
| free_handler.

Inductive disposition : Type :=
| SIG_DFL
| SIG_IGN
| Handler (h : handler).

Global Instance handler_eq_dec : EqDecision handler.
Proof. solve_decision. Defined.
Global Instance disposition_eq_dec : EqDecision disposition.
Proof. solve_decision. Defined.

(** ** The process around the profiler *)

Record Process : Type := mkProcess {
  cwd : string;                        (* [os.getcwd()] *)
  clock : Q;                           (* a reading of [time.process_time()] already made *)
  sigs : gmap Z disposition;           (* signal number -> disposition *)
  itimers : gmap Z (Q * Q);            (* armed interval timers: (seconds, interval) *)
  memo : list (string * bool);         (* entries of [lru_cache], most recent first *)
}.

Definition set_cwd (d : string) (P : Process) : Process :=
  mkProcess d (clock P) (sigs P) (itimers P) (memo P).
Definition set_clock (t : Q) (P : Process) : Process :=
  mkProcess (cwd P) t (sigs P) (itimers P) (memo P).
Definition set_sigs (m : gmap Z disposition) (P : Process) : Process :=
  mkProcess (cwd P) (clock P) m (itimers P) (memo P).
Definition set_itimers (m : gmap Z (Q * Q)) (P : Process) : Process :=
  mkProcess (cwd P) (clock P) (sigs P) m (memo P).
Definition set_memo (c : list (string * bool)) (P : Process) : Process :=
  mkProcess (cwd P) (clock P) (sigs P) (itimers P) c.

(** A process that has just started in directory [d] at process time [t]. *)
Definition fresh_process (d : string) (t : Q) : Process :=
  mkProcess d t ∅ ∅ [].

(** [signal.signal(signum, d)]: a number out of range raises [ValueError],
    [SIGKILL] and [SIGSTOP] cannot be rebound. *)
Definition signal_signal (signum : Z) (d : disposition) (P : Process) : result Process :=
  if (signum <? 1)%Z || (signal.NSIG <=? signum)%Z then Raise ValueError
  else if (signum =? signal.SIGKILL)%Z || (signum =? signal.SIGSTOP)%Z then Raise OSError
  else Ok (set_sigs (<[signum := d]> (sigs P)) P).

(** [signal.setitimer(which, seconds, interval)]; zero seconds clears the
    timer. *)
Definition setitimer (which : Z) (seconds interval : Q) (P : Process) : Process :=
  if Qeq_bool seconds 0 then set_itimers (delete which (itimers P)) P
  else set_itimers (<[which := (seconds, interval)]> (itimers P)) P.

(** [random.uniform(a, b)] is [a + (b - a) * random()], where [random()]
    draws [r] from [0, 1). *)
Definition random_uniform (a b r : Q) : Q := a + (b - a) * r.

(** ** Frames *)

#[local] Set Warnings "-register-all".
Inductive frame : Type :=
| Frame (co_filename : string) (f_lineno : Z) (f_back : option frame).
#[local] Set Warnings "register-all".

Definition co_filename (fr : frame) : string :=
  match fr with Frame n _ _ => n end.
Definition f_lineno (fr : frame) : Z :=
  match fr with Frame _ l _ => l end.
Definition f_back (fr : frame) : option frame :=
  match fr with Frame _ _ b => b end.

(** ** The class [Scalene] *)

Record Scalene : Type := mkScalene {
  cpu_samples_python : gmap string (gmap Z Z);
  cpu_samples_c : gmap string (gmap Z Q);
  memory_free_samples : gmap string (gmap Z Z);
  memory_malloc_samples : gmap string (gmap Z Z);
  total_cpu_samples : Q;
  total_memory_free_samples : Z;
  total_memory_malloc_samples : Z;
  last_signal_interval : Q;
  last_signal_time : Q;
  elapsed_time : Q;
  program_being_profiled : string;
  program_path : string;
}.

Definition mean_signal_interval : Q := 1 # 100.
Definition malloc_sampling_rate : Z := 256 * 1024 * 1024.
Definition free_sampling_rate : Z := 256 * 1024 * 1024.
Definition cpu_timer_signal : Z := signal.ITIMER_VIRTUAL.
Definition cpu_signal : Z := signal.SIGVTALRM.
Definition malloc_signal : Z := signal.SIGPROF.
Definition free_signal : Z := signal.SIGXCPU.

(** The attributes as the class statement leaves them ([last_signal_time]
    is first assigned by [__init__]). *)
Definition class_attributes : Scalene :=
  mkScalene ∅ ∅ ∅ ∅ 0 0 0 (1 # 100) 0 0 "" "".

(** [t[fname][line]] on a [defaultdict] of [defaultdict(int)]. *)
Definition entry {V : Type} (zero : V) (t : gmap string (gmap Z V))
    (fname : string) (line : Z) : V :=
  default zero (default ∅ (t !! fname) !! line).

(** [t[fname][line] = v] *)
Definition store {V : Type} (t : gmap string (gmap Z V))
    (fname : string) (line : Z) (v : V) : gmap string (gmap Z V) :=
  <[fname := <[line := v]> (default ∅ (t !! fname))]> t.

(** The state of the whole run. *)
Record World : Type := mkWorld {
  cls : Scalene;
  proc : Process;
}.

Definition set_cls (S : Scalene) (w : World) : World := mkWorld S (proc w).
Definition set_proc (P : Process) (w : World) : World := mkWorld (cls w) P.

(** ** The location filter *)

(** [functools.lru_cache(maxsize)] around a function of one string: a hit
    returns the stored value and makes the entry the most recent one; a miss
    calls the function and, unless it raises, stores the result, dropping the
    least recent entry when the table is full. *)
Definition lru_lookup (key : string) (c : list (string * bool)) : option bool :=
  snd <$> List.find (fun kv => bool_decide (fst kv = key)) c.

Definition lru_remove (key : string) (c : list (string * bool)) : list (string * bool) :=
  List.filter (fun kv => negb (bool_decide (fst kv = key))) c.

Definition lru_cache (maxsize : nat) (f : string -> result bool)
    (c : list (string * bool)) (key : string) : result (bool * list (string * bool)) :=
  match lru_lookup key c with
  | Some v => Ok (v, (key, v) :: lru_remove key c)
  | None =>
      try! v := f key in
      Ok (v, (key, v) :: (if (maxsize <=? length c)%nat then List.removelast c else c))
  end.

(** The body of [should_trace], for the program path [ppath] and the working
    directory [dir] current at the call. *)
Definition should_trace_body (ppath dir : string) (filename : string) : result bool :=
  match filename with
  | EmptyString => Raise IndexError                         (* filename[0] *)
  | String c0 _ =>
      if bool_decide (c0 = "<"%char) then Ok false
      else if pystr.contains "scalene.py" filename then Ok false
      else
        let filename := posixpath.abspath dir filename in
        Ok (pystr.contains ppath filename)
  end.

(** [Scalene.should_trace(filename)], with its memo table. *)
Definition should_trace (filename : string) (w : World) : result (bool * World) :=
  try! (b, c) := lru_cache 128 (should_trace_body (program_path (cls w)) (cwd (proc w)))
                   (memo (proc w)) filename in
  Ok (b, set_proc (set_memo c (proc w)) w).

(** ** The signal handlers *)

Definition set_sampling (t i : Q) (S : Scalene) : Scalene :=
  mkScalene (cpu_samples_python S) (cpu_samples_c S) (memory_free_samples S)
    (memory_malloc_samples S) (total_cpu_samples S) (total_memory_free_samples S)
    (total_memory_malloc_samples S) i t (elapsed_time S)
    (program_being_profiled S) (program_path S).

Definition set_cpu (py : gmap string (gmap Z Z)) (c : gmap string (gmap Z Q)) (total : Q)
    (S : Scalene) : Scalene :=
  mkScalene py c (memory_free_samples S) (memory_malloc_samples S) total
    (total_memory_free_samples S) (total_memory_malloc_samples S)
    (last_signal_interval S) (last_signal_time S) (elapsed_time S)
    (program_being_profiled S) (program_path S).

Definition set_malloc (m : gmap string (gmap Z Z)) (total : Z) (S : Scalene) : Scalene :=
  mkScalene (cpu_samples_python S) (cpu_samples_c S) (memory_free_samples S) m
    (total_cpu_samples S) (total_memory_free_samples S) total
    (last_signal_interval S) (last_signal_time S) (elapsed_time S)
    (program_being_profiled S) (program_path S).

Definition set_free (m : gmap string (gmap Z Z)) (total : Z) (S : Scalene) : Scalene :=
  mkScalene (cpu_samples_python S) (cpu_samples_c S) m (memory_malloc_samples S)
    (total_cpu_samples S) total (total_memory_malloc_samples S)
    (last_signal_interval S) (last_signal_time S) (elapsed_time S)
    (program_being_profiled S) (program_path S).

Definition set_elapsed_time (t : Q) (S : Scalene) : Scalene :=
  mkScalene (cpu_samples_python S) (cpu_samples_c S) (memory_free_samples S)
    (memory_malloc_samples S) (total_cpu_samples S) (total_memory_free_samples S)
    (total_memory_malloc_samples S) (last_signal_interval S) (last_signal_time S) t
    (program_being_profiled S) (program_path S).

Definition set_program (prog path : string) (S : Scalene) : Scalene :=
  mkScalene (cpu_samples_python S) (cpu_samples_c S) (memory_free_samples S)
    (memory_malloc_samples S) (total_cpu_samples S) (total_memory_free_samples S)
    (total_memory_malloc_samples S) (last_signal_interval S) (last_signal_time S)
    (elapsed_time S) prog path.

(** What a handler leaves behind: it returns, or it raises in the world
    it has reached by then. *)
Inductive outcome : Type :=
| Returned (w : World)
| Raised (e : exn) (w : World).

Definition world_after (o : outcome) : World :=
  match o with Returned w | Raised _ w => w end.

Definition attempt {A : Type} (r : result A) (w : World) (k : A -> outcome) : outcome :=
  match r with
  | Ok a => k a
  | Raise e => Raised e w
  end.

Notation "'try!' x ':=' c 'or' 'raise' 'in' w 'then' k" := (attempt c w (fun x => k))
  (at level 10, x pattern, c at level 100, w at level 9, k at level 200).

(** The file name the CPU handler attributes the sample to: that of the
    frame, or of the outer frame when the frame has none. *)
Definition cpu_frame_filename (fr : frame) : result string :=
  if bool_decide (String.length (co_filename fr) = 0%nat) then
    match f_back fr with
    | Some outer => Ok (co_filename outer)
    | None => Raise AttributeError                  (* None.f_code *)
    end
  else Ok (co_filename fr).

(** [Scalene.cpu_signal_handler(_, frame)]. [now] and [now'] are the
    readings of its first and second call of [gettime], and [r] is the draw
    of [random.random()] inside [random.uniform]. A zero
    [last_signal_interval] makes the first division raise, after the
    interpreted count was stored and the native entry was read (and so
    created). *)
Definition cpu_signal_handler (now now' r : Q) (fr : frame) (w : World) : outcome :=
  let elapsed_since_last_signal := now - last_signal_time (cls w) in
  try! fname := cpu_frame_filename fr or raise in w then
  try! (traced, w) := should_trace fname w or raise in w then
  let S := cls w in
  if negb traced then
    let interval :=
      random_uniform (mean_signal_interval / 2) (mean_signal_interval * 3 / 2) r in
    Returned (mkWorld (set_sampling now' interval S)
                (set_clock now' (setitimer cpu_timer_signal interval interval (proc w))))
  else
    let c_time := elapsed_since_last_signal - last_signal_interval S in
    let py := store (cpu_samples_python S) fname (f_lineno fr)
                (entry 0%Z (cpu_samples_python S) fname (f_lineno fr) + 1)%Z in
    if Qeq_bool (last_signal_interval S) 0 then
      Raised ZeroDivisionError
        (set_cls
           (set_cpu py
              (store (cpu_samples_c S) fname (f_lineno fr)
                 (entry 0 (cpu_samples_c S) fname (f_lineno fr)))
              (total_cpu_samples S) S) w)
    else
      let c := store (cpu_samples_c S) fname (f_lineno fr)
                 (entry 0 (cpu_samples_c S) fname (f_lineno fr)
                  + c_time / last_signal_interval S) in
      let total := total_cpu_samples S
                   + elapsed_since_last_signal / last_signal_interval S in
      let interval :=
        random_uniform (mean_signal_interval / 2) (mean_signal_interval * 3 / 2) r in
      Returned (mkWorld (set_sampling now' interval (set_cpu py c total S))
                  (set_clock now' (setitimer cpu_timer_signal interval interval (proc w)))).

(** [Scalene.malloc_signal_handler(_, frame)] *)
Definition malloc_signal_handler (fr : frame) (w : World) : outcome :=
  let fname := co_filename fr in
  try! (traced, w) := should_trace fname w or raise in w then
  let S := cls w in
  if negb traced then Returned w
  else
    Returned
      (set_cls
         (set_malloc
            (store (memory_malloc_samples S) fname (f_lineno fr)
               (entry 0%Z (memory_malloc_samples S) fname (f_lineno fr) + 1)%Z)
            (total_memory_malloc_samples S + 1)%Z S) w).

(** [Scalene.free_signal_handler(_, frame)] *)
Definition free_signal_handler (fr : frame) (w : World) : outcome :=
  let fname := co_filename fr in
  try! (traced, w) := should_trace fname w or raise in w then
  let S := cls w in
  if negb traced then Returned w
  else
    Returned
      (set_cls
         (set_free
            (store (memory_free_samples S) fname (f_lineno fr)
               (entry 0%Z (memory_free_samples S) fname (f_lineno fr) + 1)%Z)
            (total_memory_free_samples S + 1)%Z S) w).

(** ** Lifecycle *)

(** [os.chdir(d)] *)
Definition os_chdir (d : string) (P : Process) : Process :=
  set_cwd (posixpath.abspath (cwd P) d) P.

(** [Scalene.__init__(program_being_profiled)]; [now] is the reading of
    [gettime]. The registration of [exit_handler] with [atexit] is the
    event [Exit] below. *)
Definition __init__ (program : string) (now : Q) (w : World) : result World :=
  let prog := posixpath.abspath (cwd (proc w)) program in
  let S := set_program prog (posixpath.dirname prog) (cls w) in
  try! P := signal_signal cpu_signal (Handler cpu_handler) (proc w) in
  try! P := signal_signal malloc_signal (Handler malloc_handler) P in
  try! P := signal_signal free_signal (Handler free_handler) P in
  let P := setitimer cpu_timer_signal mean_signal_interval mean_signal_interval P in
  Ok (mkWorld (set_sampling now (last_signal_interval S) S) (set_clock now P)).

(** [Scalene.start()] *)
Definition start (now : Q) (w : World) : World :=
  mkWorld (set_elapsed_time now (cls w)) (set_clock now (proc w)).

(** [Scalene.disable_signals()]. The first call passes the timer constant
    where a signal number is expected and swallows any exception. *)
Definition disable_signals (P : Process) : result Process :=
  let P := match signal_signal cpu_timer_signal SIG_IGN P with
           | Ok P' => P'
           | Raise _ => P
           end in
  try! P := signal_signal malloc_signal SIG_IGN P in
  try! P := signal_signal free_signal SIG_IGN P in
  Ok (setitimer cpu_timer_signal 0 0 P).

(** [Scalene.stop()] *)
Definition stop (now : Q) (w : World) : result World :=
  try! P := disable_signals (proc w) in
  Ok (mkWorld (set_elapsed_time (now - elapsed_time (cls w)) (cls w)) (set_clock now P)).

(** [Scalene.exit_handler()] *)
Definition exit_handler (w : World) : result World :=
  try! P := disable_signals (proc w) in
  Ok (set_proc P w).

(** The part of [main] that runs before the profiled program: move to the
    program's directory, create the profiler, start it. [t0] and [t1] are
    the readings of [gettime] in [__init__] and in [start]. *)
Definition main_launch (prog : string) (t0 t1 : Q) (P : Process) : result World :=
  let program_path := posixpath.dirname (posixpath.abspath (cwd P) prog) in
  let P := os_chdir program_path P in
  try! w := __init__ (posixpath.join program_path (posixpath.basename prog)) t0
              (mkWorld class_attributes P) in
  Ok (start t1 w).

(** ** The report *)

Definition sum_Q (m : gmap Z Q) : Q := map_fold (fun _ v acc => acc + v) 0 m.
Definition sum_Z (m : gmap Z Z) : Z := map_fold (fun _ v acc => (acc + v)%Z) 0%Z m.

Definition did_sample_memory (S : Scalene) : bool :=
  (1 <? total_memory_free_samples S + total_memory_malloc_samples S)%Z.

(** The files the report visits (it visits them in sorted order). *)
Definition all_instrumented_files (S : Scalene) : gset string :=
  dom (cpu_samples_python S) ∪ dom (memory_free_samples S)
  ∪ dom (memory_malloc_samples S).

Definition this_cpu_samples (S : Scalene) (fname : string) : Q :=
  sum_Q (default ∅ (cpu_samples_c S !! fname))
  + inject_Z (sum_Z (default ∅ (cpu_samples_python S !! fname))).

Definition percent_cpu_time (S : Scalene) (fname : string) : Q :=
  if Qeq_bool (total_cpu_samples S) 0 then 0           (* ZeroDivisionError *)
  else 100 * this_cpu_samples S fname / total_cpu_samples S.

Definition n_cpu_samples_c (S : Scalene) (fname : string) (line_no : Z) : Q :=
  let n := entry 0 (cpu_samples_c S) fname line_no in
  if negb (Qle_bool 0 n) then 0 else n.

Definition n_cpu_samples_python (S : Scalene) (fname : string) (line_no : Z) : Z :=
  entry 0%Z (cpu_samples_python S) fname line_no.

Definition n_cpu_percent_c (S : Scalene) (fname : string) (line_no : Z) : Q :=
  if negb (Qeq_bool (total_cpu_samples S) 0)
  then n_cpu_samples_c S fname line_no * 100 / total_cpu_samples S
  else 0.

Definition n_cpu_percent_python (S : Scalene) (fname : string) (line_no : Z) : Q :=
  if negb (Qeq_bool (total_cpu_samples S) 0)
  then inject_Z (n_cpu_samples_python S fname line_no) * 100 / total_cpu_samples S
  else 0.

Definition n_free_mb (S : Scalene) (fname : string) (line_no : Z) : Q :=
  inject_Z (entry 0%Z (memory_free_samples S) fname line_no * malloc_sampling_rate)
  / inject_Z (1024 * 1024).

Definition n_malloc_mb (S : Scalene) (fname : string) (line_no : Z) : Q :=
  inject_Z (entry 0%Z (memory_malloc_samples S) fname line_no * malloc_sampling_rate)
  / inject_Z (1024 * 1024).

(** One row of the per-line table: the two CPU columns and, when memory
    was sampled, the growth and usage columns. *)
Record Row : Type := mkRow {
  row_line_no : Z;
  row_cpu_percent_python : Q;
  row_cpu_percent_c : Q;
  row_memory : option (Q * Q);
}.

Definition report_row (S : Scalene) (fname : string) (line_no : Z) : Row :=
  let n_growth_mb := n_malloc_mb S fname line_no - n_free_mb S fname line_no in
  let n_usage_mb := n_malloc_mb S fname line_no + n_free_mb S fname line_no in
  mkRow line_no (n_cpu_percent_python S fname line_no) (n_cpu_percent_c S fname line_no)
    (if did_sample_memory S then Some (n_growth_mb, n_usage_mb) else None).

(** ** Runs of the profiler *)

Inductive event : Type :=
| Timer (now now' r : Q) (fr : frame)     (* the virtual timer expires *)
| Malloc (fr : frame)                     (* the allocator signals an allocation *)
| Free (fr : frame)                       (* the allocator signals a free *)
| Chdir (d : string)                      (* the profiled program changes directory *)
| Stop (now : Q)                          (* [main] calls [stop] *)
| Exit.                                   (* [atexit] calls [exit_handler] *)

(** An event can happen in [w]: a signal is delivered to a handler only
    while the handler is bound (and, for the timer, armed); the clock never
    runs backwards; [random()] is in [0, 1). *)
Definition admissible (ev : event) (w : World) : Prop :=
  match ev with
  | Timer now now' r _ =>
      sigs (proc w) !! cpu_signal = Some (Handler cpu_handler)
      /\ is_Some (itimers (proc w) !! cpu_timer_signal)
      /\ clock (proc w) <= now /\ now <= now' /\ 0 <= r /\ r < 1
  | Malloc _ => sigs (proc w) !! malloc_signal = Some (Handler malloc_handler)
  | Free _ => sigs (proc w) !! free_signal = Some (Handler free_handler)
  | Chdir _ => True
  | Stop now => clock (proc w) <= now
  | Exit => True
  end.

(** The world after the event: what the handler leaves behind, whether it
    returns or raises. *)
Definition deliver (ev : event) (w : World) : World :=
  match ev with
  | Timer now now' r fr => world_after (cpu_signal_handler now now' r fr w)
  | Malloc fr => world_after (malloc_signal_handler fr w)
  | Free fr => world_after (free_signal_handler fr w)
  | Chdir d => set_proc (os_chdir d (proc w)) w
  | Stop now =>
      match stop now w with Ok w' => w' | Raise _ => w end
  | Exit =>
      match exit_handler w with Ok w' => w' | Raise _ => w end
  end.

Definition run (evs : list event) (w : World) : World := fold_left (fun w ev => deliver ev w) evs w.

(** The worlds a profiled run goes through. *)
Inductive reachable : World -> Prop :=
| reachable_launch (d prog : string) (t t0 t1 : Q) (w : World) :
    t <= t0 -> t0 <= t1 ->
    main_launch prog t0 t1 (fresh_process d t) = Ok w ->
    reachable w
| reachable_deliver (ev : event) (w : World) :
    reachable w -> admissible ev w -> reachable (deliver ev w).

(** ** What the specification asks of the filter and of the report *)

(** Containment as the specification words it: [path] is the root directory
    or lies below it. *)
Definition spec_contained (root path : string) : bool :=
  bool_decide (path = root) || String.prefix (root +:+ "/") path.

(** The per-file total as the specification words it: native entries
    clamped at zero, plus the interpreted entries. *)
Definition spec_this_file_cpu_samples (S : Scalene) (fname : string) : Q :=
  sum_Q ((fun v => if Qle_bool 0 v then v else 0) <$> default ∅ (cpu_samples_c S !! fname))
  + inject_Z (sum_Z (default ∅ (cpu_samples_python S !! fname))).

(** The answer of the filter alone. *)
Definition filter_answer (filename : string) (w : World) : result bool :=
  try! (b, _) := should_trace filename w in Ok b.

(** * Invariants, auxiliary predicates and concrete runs *)

(** The process after [disable_signals]. *)
Definition disabled (P : Process) : Process :=
  mkProcess (cwd P) (clock P)
    (<[free_signal := SIG_IGN]> (<[malloc_signal := SIG_IGN]>
       (<[cpu_timer_signal := SIG_IGN]> (sigs P))))
    (delete cpu_timer_signal (itimers P)) (memo P).

(** A program launched at process time 0 and started at 1, then stopped
    at 5, then stopped again at 6. *)
Definition launched_at_1 : result World :=
  main_launch "main.py" 0 1 (fresh_process "/home/u/proj" 0).
Definition stopped_once : result World :=
  try! w := launched_at_1 in stop 5 w.
Definition stopped_twice : result World :=
  try! w := stopped_once in stop 6 w.

(** [R] holds of every entry of the memo table. *)
Definition memo_all (R : string -> bool -> Prop) (c : list (string * bool)) : Prop :=
  Forall (fun kv => R (fst kv) (snd kv)) c.

(** The interval is within half the mean of the mean. *)
Definition interval_in_range (w : World) : Prop :=
  mean_signal_interval / 2 <= last_signal_interval (cls w)
  /\ last_signal_interval (cls w) <= mean_signal_interval * 3 / 2.

(** Some program path and working directory make the filter's body answer
    [b] on [filename]. *)
Definition answered (filename : string) (b : bool) : Prop :=
  exists ppath dir, should_trace_body ppath dir filename = Ok b.

(** Every stored answer was computed by the body, and every file with an
    entry in a table was accepted by it. *)
Definition filter_inv (w : World) : Prop :=
  memo_all answered (memo (proc w))
  /\ forall f,
       is_Some (cpu_samples_python (cls w) !! f) \/ is_Some (cpu_samples_c (cls w) !! f)
       \/ is_Some (memory_free_samples (cls w) !! f)
       \/ is_Some (memory_malloc_samples (cls w) !! f) ->
       answered f true.

(** The clock is never behind the last recorded signal time, and on every
    line the interpreted count plus the raw native weight is at most the
    weighted total. *)
Definition share_inv (w : World) : Prop :=
  last_signal_time (cls w) <= clock (proc w)
  /\ forall f l,
       inject_Z (entry 0%Z (cpu_samples_python (cls w)) f l)
       + entry 0 (cpu_samples_c (cls w)) f l
       <= total_cpu_samples (cls w).

(** The world of a launch that is known to succeed. *)
Definition world_of (r : result World) : World :=
  match r with
  | Ok w => w
  | Raise _ => mkWorld class_attributes (fresh_process "" 0)
  end.

(** [python -m scalene main.py] in [/home/u/proj], at process time 0. *)
Definition launched : World :=
  world_of (main_launch "main.py" 0 0 (fresh_process "/home/u/proj" 0)).

(** The first timer interrupt arrives at line 3 of the program 9.999 ms of
    process time after [last_signal_time] was read, one microsecond short of
    the 10 ms of the interval. *)
Definition early_tick : event :=
  Timer (9999 # 1000000) (9999 # 1000000) (1 # 2) (Frame "main.py" 3 None).

(** The first timer interrupt arrives at line 3 after 20 ms. *)
Definition late_tick : event :=
  Timer (2 # 100) (2 # 100) (1 # 2) (Frame "main.py" 3 None).

(** Line 7 of the program. *)
Definition main_frame : frame := Frame "main.py" 7 None.
(** Code compiled with an empty file name, called from the program. *)
Definition eval_frame : frame := Frame "" 1 (Some main_frame).
(** Such code called from such code. *)
Definition nested_eval_frame : frame := Frame "" 1 (Some eval_frame).

(** One allocation signal at line 3 of the program. *)
Definition one_malloc : event := Malloc (Frame "main.py" 3 None).

(** Every stored answer is the one the body gives for [ppath] and [dir]. *)
Definition memo_agrees (ppath dir : string) (c : list (string * bool)) : Prop :=
  memo_all (fun k v => should_trace_body ppath dir k = Ok v) c.

(** The event changes the working directory. *)
Definition is_chdir (ev : event) : bool :=
  match ev with Chdir _ => true | _ => false end.

(** The file names an event passes to [should_trace]. *)
Definition queried (ev : event) : list string :=
  match ev with
  | Timer _ _ _ fr =>
      match cpu_frame_filename fr with Ok f => [f] | Raise _ => [] end
  | Malloc fr | Free fr => [co_filename fr]
  | Chdir _ | Stop _ | Exit => []
  end.

(** In a world whose memo table agrees with the present program path and
    directory. *)
Definition settled (ppath dir : string) (w : World) : Prop :=
  program_path (cls w) = ppath /\ cwd (proc w) = dir
  /\ memo_agrees ppath dir (memo (proc w)).

(** The entry of [f] is in the table, and only files of [D] are in front
    of it. *)
Definition pinned (f : string) (b : bool) (D : list string)
    (c : list (string * bool)) : Prop :=
  NoDup c.*1
  /\ exists c1 c2, c = c1 ++ (f, b) :: c2 /\ forall x, x ∈ c1.*1 -> x ∈ D.

(** A decision procedure for [admissible]. *)
Definition admissibleb (ev : event) (w : World) : bool :=
  match ev with
  | Timer now now' r _ =>
      bool_decide (sigs (proc w) !! cpu_signal = Some (Handler cpu_handler))
      && bool_decide (is_Some (itimers (proc w) !! cpu_timer_signal))
      && Qle_bool (clock (proc w)) now && Qle_bool now now'
      && Qle_bool 0 r && negb (Qle_bool 1 r)
  | Malloc _ => bool_decide (sigs (proc w) !! malloc_signal = Some (Handler malloc_handler))
  | Free _ => bool_decide (sigs (proc w) !! free_signal = Some (Handler free_handler))
  | Chdir _ => true
  | Stop now => Qle_bool (clock (proc w)) now
  | Exit => true
  end.

(** Every event of the run can happen when its turn comes. *)
Fixpoint admissible_run (evs : list event) (w : World) : bool :=
  match evs with
  | [] => true
  | ev :: evs' => admissibleb ev w && admissible_run evs' (deliver ev w)
  end.

(** The [n]-th of a family of library files. *)
Definition library_file (n : nat) : string :=
  "/usr/lib/python3/" +:+ pystr.replicate n "m"%char +:+ ".py".

(** The program is sampled in its own file, changes to [/tmp], and is then
    sampled in 128 library files. *)
Definition wandering_run : list event :=
  Malloc (Frame "main.py" 3 None)
  :: Chdir "/tmp"
  :: ((fun n => Malloc (Frame (library_file n) 1 None)) <$> seq 1 128).

(** Line 10 of a library module, and the launched world once the filter
    has been asked about that module. *)
Definition library_frame : frame := Frame "/usr/lib/python3/os.py" 10 None.

Definition launched_after_os : World :=
  set_proc (set_memo [("/usr/lib/python3/os.py", false)] (proc launched)) launched.

(** * The end of [main], aggregates and further predicates *)

(** The test of [main] on whether any sample was collected. *)
Definition main_reports (S : Scalene) : bool :=
  negb (Qle_bool (total_cpu_samples S) 0)
  || (0 <? total_memory_malloc_samples S)%Z
  || (0 <? total_memory_free_samples S)%Z.

(** The part of [main] after the profiled program has run: stop the
    profiler, go back to the original directory, and decide between the
    report ([true]) and the notice that the program was too short. *)
Definition main_finish (original_path : string) (now : Q) (w : World)
    : result (World * bool) :=
  try! w := stop now w in
  let w := set_proc (os_chdir original_path (proc w)) w in
  Ok (w, main_reports (cls w)).

(** The sum of the per-file sums of a table, over all its files. *)
Definition sum_table_Z (t : gmap string (gmap Z Z)) : Z :=
  map_fold (fun _ m acc => (acc + sum_Z m)%Z) 0%Z t.

(** The entry of a table at a file and line, if there is one. *)
Definition cell {V : Type} (t : gmap string (gmap Z V)) (fname : string) (line : Z)
    : option V :=
  default ∅ (t !! fname) !! line.

(** Every event of the run can happen when its turn comes. *)
Fixpoint admissible_trace (evs : list event) (w : World) : Prop :=
  match evs with
  | [] => True
  | ev :: evs' => admissible ev w /\ admissible_trace evs' (deliver ev w)
  end.

Definition is_stop (ev : event) : bool :=
  match ev with Stop _ => true | _ => false end.

(** The memory signals are ignored and the virtual timer is not armed. *)
Definition signals_off (P : Process) : Prop :=
  sigs P !! malloc_signal = Some SIG_IGN
  /\ sigs P !! free_signal = Some SIG_IGN
  /\ itimers P !! cpu_timer_signal = None.

(** The four tables and the three counters. *)
Definition samples (S : Scalene) :=
  (cpu_samples_python S, cpu_samples_c S, memory_free_samples S,
   memory_malloc_samples S, total_cpu_samples S, total_memory_free_samples S,
   total_memory_malloc_samples S).

(** With the program path [ppath], some working directory makes the
    filter's body answer [b] on [filename]. *)
Definition answered_by (ppath filename : string) (b : bool) : Prop :=
  exists dir, should_trace_body ppath dir filename = Ok b.

(** Every stored answer and every file of a table comes from the body run
    with the program path of the profiler. *)
Definition scoped_inv (w : World) : Prop :=
  memo_all (answered_by (program_path (cls w))) (memo (proc w))
  /\ forall f,
       is_Some (cpu_samples_python (cls w) !! f) \/ is_Some (cpu_samples_c (cls w) !! f)
       \/ is_Some (memory_free_samples (cls w) !! f)
       \/ is_Some (memory_malloc_samples (cls w) !! f) ->
       answered_by (program_path (cls w)) f true.

(** Every stored answer for an absolute file name is the one the body gives
    in any directory. *)
Definition absolute_inv (ppath : string) (w : World) : Prop :=
  program_path (cls w) = ppath
  /\ memo_all
       (fun k v =>
          posixpath.isabs k = true -> forall dir, should_trace_body ppath dir k = Ok v)
       (memo (proc w)).

(** The two CPU tables have entries for the same files and lines. *)
Definition same_lines (w : World) : Prop :=
  (forall f, is_Some (cpu_samples_python (cls w) !! f)
             <-> is_Some (cpu_samples_c (cls w) !! f))
  /\ (forall f l, is_Some (cell (cpu_samples_python (cls w)) f l)
                  <-> is_Some (cell (cpu_samples_c (cls w)) f l)).

(** Every stored count is at least one, and the memory counters are not
    negative. *)
Definition counts_inv (w : World) : Prop :=
  (forall f l v, cell (cpu_samples_python (cls w)) f l = Some v -> (1 <= v)%Z)
  /\ (forall f l v, cell (memory_malloc_samples (cls w)) f l = Some v -> (1 <= v)%Z)
  /\ (forall f l v, cell (memory_free_samples (cls w)) f l = Some v -> (1 <= v)%Z)
  /\ (0 <= total_memory_malloc_samples (cls w))%Z
  /\ (0 <= total_memory_free_samples (cls w))%Z.

(** The three handlers are bound and the virtual timer is armed with the
    interval the profiler has recorded. *)
Definition armed (w : World) : Prop :=
  sigs (proc w) !! cpu_signal = Some (Handler cpu_handler)
  /\ sigs (proc w) !! malloc_signal = Some (Handler malloc_handler)
  /\ sigs (proc w) !! free_signal = Some (Handler free_handler)
  /\ itimers (proc w) !! cpu_timer_signal
     = Some (last_signal_interval (cls w), last_signal_interval (cls w)).

Definition is_shutdown (ev : event) : bool :=
  match ev with Stop _ | Exit => true | _ => false end.

(** A table without entries goes with a counter at zero. *)
Definition nonempty_inv (w : World) : Prop :=
  (cpu_samples_python (cls w) = ∅ -> total_cpu_samples (cls w) = 0)
  /\ (memory_malloc_samples (cls w) = ∅ -> total_memory_malloc_samples (cls w) = 0%Z)
  /\ (memory_free_samples (cls w) = ∅ -> total_memory_free_samples (cls w) = 0%Z).

(** The handler that takes the event and whose filter accepts its
    location, if there is one. *)
Definition accepting_handler (ev : event) (w : World) : option handler :=
  match ev with
  | Timer _ _ _ fr =>
      match cpu_frame_filename fr with
      | Ok f => match filter_answer f w with Ok true => Some cpu_handler | _ => None end
      | Raise _ => None
      end
  | Malloc fr =>
      match filter_answer (co_filename fr) w with
      | Ok true => Some malloc_handler
      | _ => None
      end
  | Free fr =>
      match filter_answer (co_filename fr) w with
      | Ok true => Some free_handler
      | _ => None
      end
  | Chdir _ | Stop _ | Exit => None
  end.

(** How many events of the run from [w] the handler [h] accepts. *)
Fixpoint count_accepted (h : handler) (evs : list event) (w : World) : Z :=
  match evs with
  | [] => 0
  | ev :: evs' =>
      ((if decide (accepting_handler ev w = Some h) then 1 else 0)
       + count_accepted h evs' (deliver ev w))%Z
  end.

Definition is_timer (ev : event) : bool :=
  match ev with Timer _ _ _ _ => true | _ => false end.

(** * The CPU arithmetic on doubles

    The definitions above compute with exact rationals. Here every
    floating-point operation of the timer handler and of the percentages
    of the report is the exact operation followed by a rounding [fl]; the
    integer operations stay exact. With [fl] the identity these are the
    definitions above. *)

(** The literal [0.01]. *)
Definition mean_signal_interval_fl (fl : Q -> Q) : Q := fl mean_signal_interval.

(** [random.uniform(a, b)] on doubles: [a + (b - a) * random()]. *)
Definition random_uniform_fl (fl : Q -> Q) (a b r : Q) : Q :=
  fl (a + fl (fl (b - a) * r)).

(** The interval the handler draws:
    [random.uniform(mean / 2, mean * 3 / 2)]. *)
Definition drawn_interval_fl (fl : Q -> Q) (r : Q) : Q :=
  random_uniform_fl fl (fl (mean_signal_interval_fl fl / 2))
    (fl (fl (mean_signal_interval_fl fl * 3) / 2)) r.

Definition class_attributes_fl (fl : Q -> Q) : Scalene :=
  mkScalene ∅ ∅ ∅ ∅ 0 0 0 (fl (1 # 100)) 0 0 "" "".

(** [Scalene.__init__] and the launch of [main], with the literals as
    doubles. *)
Definition init_fl (fl : Q -> Q) (program : string) (now : Q) (w : World) : result World :=
  let prog := posixpath.abspath (cwd (proc w)) program in
  let S := set_program prog (posixpath.dirname prog) (cls w) in
  try! P := signal_signal cpu_signal (Handler cpu_handler) (proc w) in
  try! P := signal_signal malloc_signal (Handler malloc_handler) P in
  try! P := signal_signal free_signal (Handler free_handler) P in
  let P := setitimer cpu_timer_signal (mean_signal_interval_fl fl)
             (mean_signal_interval_fl fl) P in
  Ok (mkWorld (set_sampling now (last_signal_interval S) S) (set_clock now P)).

Definition main_launch_fl (fl : Q -> Q) (prog : string) (t0 t1 : Q) (P : Process)
    : result World :=
  let program_path := posixpath.dirname (posixpath.abspath (cwd P) prog) in
  let P := os_chdir program_path P in
  try! w := init_fl fl (posixpath.join program_path (posixpath.basename prog)) t0
              (mkWorld (class_attributes_fl fl) P) in
  Ok (start t1 w).

(** [Scalene.cpu_signal_handler(_, frame)] on doubles. *)
Definition cpu_signal_handler_fl (fl : Q -> Q) (now now' r : Q) (fr : frame) (w : World)
    : outcome :=
  let elapsed_since_last_signal := fl (now - last_signal_time (cls w)) in
  try! fname := cpu_frame_filename fr or raise in w then
  try! (traced, w) := should_trace fname w or raise in w then
  let S := cls w in
  if negb traced then
    let interval := drawn_interval_fl fl r in
    Returned (mkWorld (set_sampling now' interval S)
                (set_clock now' (setitimer cpu_timer_signal interval interval (proc w))))
  else
    let c_time := fl (elapsed_since_last_signal - last_signal_interval S) in
    let py := store (cpu_samples_python S) fname (f_lineno fr)
                (entry 0%Z (cpu_samples_python S) fname (f_lineno fr) + 1)%Z in
    if Qeq_bool (last_signal_interval S) 0 then
      Raised ZeroDivisionError
        (set_cls
           (set_cpu py
              (store (cpu_samples_c S) fname (f_lineno fr)
                 (entry 0 (cpu_samples_c S) fname (f_lineno fr)))
              (total_cpu_samples S) S) w)
    else
      let c := store (cpu_samples_c S) fname (f_lineno fr)
                 (fl (entry 0 (cpu_samples_c S) fname (f_lineno fr)
                      + fl (c_time / last_signal_interval S))) in
      let total := fl (total_cpu_samples S
                       + fl (elapsed_since_last_signal / last_signal_interval S)) in
      let interval := drawn_interval_fl fl r in
      Returned (mkWorld (set_sampling now' interval (set_cpu py c total S))
                  (set_clock now' (setitimer cpu_timer_signal interval interval (proc w)))).

(** The percentages of a line of the report on doubles: the integer
    product [n * 100] is exact and is converted to a double for the
    division. *)
Definition n_cpu_percent_c_fl (fl : Q -> Q) (S : Scalene) (fname : string) (line_no : Z)
    : Q :=
  if negb (Qeq_bool (total_cpu_samples S) 0)
  then fl (fl (n_cpu_samples_c S fname line_no * 100) / total_cpu_samples S)
  else 0.

Definition n_cpu_percent_python_fl (fl : Q -> Q) (S : Scalene) (fname : string)
    (line_no : Z) : Q :=
  if negb (Qeq_bool (total_cpu_samples S) 0)
  then fl (fl (inject_Z (n_cpu_samples_python S fname line_no * 100))
           / total_cpu_samples S)
  else 0.

(** Events and runs with the timer handler on doubles. *)
Definition deliver_fl (fl : Q -> Q) (ev : event) (w : World) : World :=
  match ev with
  | Timer now now' r fr => world_after (cpu_signal_handler_fl fl now now' r fr w)
  | _ => deliver ev w
  end.

Definition run_fl (fl : Q -> Q) (evs : list event) (w : World) : World :=
  fold_left (fun w ev => deliver_fl fl ev w) evs w.

(** No timer interrupt that the handler attributes to line [line_no] of
    [fname] comes early: the elapsed time the handler computes is at least
    the recorded interval. At the other interrupts the filter accepts the
    clock has not run backwards since [last_signal_time] was read, and no
    draw of [random()] is negative. *)
Fixpoint punctual (fl : Q -> Q) (fname : string) (line_no : Z) (evs : list event)
    (w : World) : Prop :=
  match evs with
  | [] => True
  | ev :: evs' =>
      match ev with
      | Timer now _ r fr =>
          0 <= r
          /\ (accepting_handler ev w = Some cpu_handler ->
              last_signal_time (cls w) <= now
              /\ (cpu_frame_filename fr = Ok fname -> f_lineno fr = line_no ->
                  last_signal_interval (cls w)
                  <= fl (now - last_signal_time (cls w))))
      | _ => True
      end
      /\ punctual fl fname line_no evs' (deliver_fl fl ev w)
  end.





(** A rounding that pushes every result up by the factor [1 + u]. *)
Definition round_up (u x : Q) : Q := x * (1 + u).

(** The unit roundoff of a double, [2^-53]. *)
Definition unit_roundoff : Q := 1 # 9007199254740992.

(** The launch of [main.py] with the doubles rounded by [fl]. *)
Definition launched_fl (fl : Q -> Q) : World :=
  world_of (main_launch_fl fl "main.py" 0 0 (fresh_process "/home/u/proj" 0)).


(** * Properties *)

(** ** The path functions on familiar inputs *)

Example abspath_relative :
  posixpath.abspath "/home/u/proj" "../x//./y.py" = "/home/u/x/y.py".
Proof. reflexivity. Qed.

Example abspath_absolute :
  posixpath.abspath "/tmp" "/home/u/../u/proj/a.py" = "/home/u/proj/a.py".
Proof. reflexivity. Qed.

Example normpath_two_slashes : posixpath.normpath "//a/../../b/" = "//b".
Proof. reflexivity. Qed.

Example normpath_leading_dotdot : posixpath.normpath "a/../../b/" = "../b".
Proof. reflexivity. Qed.

Example dirname_of_file : posixpath.dirname "/home/u/proj/main.py" = "/home/u/proj".
Proof. reflexivity. Qed.

Example dirname_at_root : posixpath.dirname "/main.py" = "/".
Proof. reflexivity. Qed.

Example basename_of_file : posixpath.basename "test/testme.py" = "testme.py".
Proof. reflexivity. Qed.

Example launch_from_parent_directory :
  main_launch "test/testme.py" 0 0 (fresh_process "/home/u/scalene" 0)
  = Ok (mkWorld
          (mkScalene ∅ ∅ ∅ ∅ 0 0 0 (1 # 100) 0 0
             "/home/u/scalene/test/testme.py" "/home/u/scalene/test")
          (mkProcess "/home/u/scalene/test" 0
             (<[free_signal := Handler free_handler]>
                (<[malloc_signal := Handler malloc_handler]>
                   (<[cpu_signal := Handler cpu_handler]> ∅)))
             {[cpu_timer_signal := (1 # 100, 1 # 100)]} [])).
Proof. vm_compute. reflexivity. Qed.

(** ** Signals and the lifecycle *)

Lemma signal_signal_ok (signum : Z) (d : disposition) (P : Process) :
  (1 <= signum < signal.NSIG)%Z -> signum <> signal.SIGKILL -> signum <> signal.SIGSTOP ->
  signal_signal signum d P = Ok (set_sigs (<[signum := d]> (sigs P)) P).
Proof.
  intros [Hlo Hhi] Hk Hs. unfold signal_signal.
  destruct (Z.ltb_spec signum 1); [lia|].
  destruct (Z.leb_spec signal.NSIG signum); [lia|].
  destruct (Z.eqb_spec signum signal.SIGKILL); [done|].
  destruct (Z.eqb_spec signum signal.SIGSTOP); [done|].
  reflexivity.
Qed.

Lemma disable_signals_ok (P : Process) : disable_signals P = Ok (disabled P).
Proof.
  unfold disable_signals.
  rewrite !signal_signal_ok by (cbv; (split; congruence) || congruence).
  reflexivity.
Qed.

Lemma disabled_idem (P : Process) : disabled (disabled P) = disabled P.
Proof.
  unfold disabled; cbn [cwd clock sigs itimers memo]. f_equal.
  - apply map_eq; intros i.
    rewrite !lookup_insert. repeat case_decide; done.
  - apply map_eq; intros i.
    rewrite !lookup_delete. repeat case_decide; done.
Qed.

Lemma disabled_set_clock (t : Q) (P : Process) :
  disabled (set_clock t P) = set_clock t (disabled P).
Proof. reflexivity. Qed.

(** C6, as stated, fails: a program launched at process time 0 and started
    at 1 is stopped at 5, which leaves [elapsed_time = 4]; a second [stop]
    at 6 leaves [elapsed_time = 6 - 4 = 2]. *)
Lemma stop_twice_changes_elapsed_time :
  exists w1 w2,
    stopped_once = Ok w1 /\ stopped_twice = Ok w2
    /\ elapsed_time (cls w1) == 4 /\ elapsed_time (cls w2) == 2
    /\ ~ elapsed_time (cls w2) == elapsed_time (cls w1).
Proof.
  eexists _, _. split; [vm_compute; reflexivity|].
  split; [vm_compute; reflexivity|].
  cbn [cls elapsed_time set_elapsed_time].
  repeat split; try reflexivity. intros H; vm_compute in H; discriminate.
Qed.

(** ** The memo table *)

Lemma lru_lookup_Some (key : string) (c : list (string * bool)) (v : bool) :
  lru_lookup key c = Some v -> (key, v) ∈ c.
Proof.
  unfold lru_lookup. destruct (List.find _ c) as [[k v']|] eqn:Hf; [|done].
  intros [= <-]. apply List.find_some in Hf as [Hin Hk].
  apply bool_decide_eq_true in Hk. cbn in Hk. subst k.
  by apply list_elem_of_In.
Qed.

Lemma lru_lookup_None (key : string) (c : list (string * bool)) :
  lru_lookup key c = None -> key ∉ c.*1.
Proof.
  unfold lru_lookup. destruct (List.find _ c) as [[k v']|] eqn:Hf; [done|].
  intros _ Hin. apply list_elem_of_fmap in Hin as [[k v] [Hk Hin]]. cbn in Hk. subst k.
  apply list_elem_of_In in Hin.
  pose proof (List.find_none _ _ Hf _ Hin) as Hn. cbn in Hn.
  by rewrite bool_decide_eq_true_2 in Hn.
Qed.

Lemma memo_all_removelast (R : string -> bool -> Prop) (c : list (string * bool)) :
  memo_all R c -> memo_all R (List.removelast c).
Proof.
  unfold memo_all. rewrite List.removelast_firstn_len. apply Forall_take.
Qed.

Lemma memo_all_remove (R : string -> bool -> Prop) (key : string) (c : list (string * bool)) :
  memo_all R c -> memo_all R (lru_remove key c).
Proof.
  unfold memo_all, lru_remove. rewrite !List.Forall_forall.
  intros H kv [Hin _]%List.filter_In. by apply H.
Qed.

(** Whatever holds of every stored entry and of every fresh result of the
    function holds of the answer of [lru_cache] and of the new table. *)
Lemma lru_cache_memo_all (R : string -> bool -> Prop) (n : nat)
    (f : string -> result bool) (c c' : list (string * bool)) (key : string) (v : bool) :
  memo_all R c ->
  (forall b, f key = Ok b -> R key b) ->
  lru_cache n f c key = Ok (v, c') ->
  R key v /\ memo_all R c'.
Proof.
  intros Hc Hf. unfold lru_cache.
  destruct (lru_lookup key c) as [v0|] eqn:Hl.
  - intros [= <- <-]. apply lru_lookup_Some in Hl.
    assert (R key v0) as Hv.
    { unfold memo_all in Hc. rewrite Forall_forall in Hc. apply (Hc _ Hl). }
    split; [done|]. apply Forall_cons; split; [done|]. by apply memo_all_remove.
  - destruct (f key) as [b|e] eqn:Hb; cbn [bind]; [|done].
    intros [= <- <-]. split; [by apply Hf|].
    apply Forall_cons; split; [by apply Hf|].
    destruct (n <=? length c)%nat; [by apply memo_all_removelast|done].
Qed.

(** [should_trace] touches the memo table and nothing else. *)
Lemma should_trace_Ok (filename : string) (w w' : World) (b : bool) :
  should_trace filename w = Ok (b, w') ->
  exists c,
    lru_cache 128 (should_trace_body (program_path (cls w)) (cwd (proc w)))
      (memo (proc w)) filename = Ok (b, c)
    /\ w' = set_proc (set_memo c (proc w)) w.
Proof.
  unfold should_trace.
  destruct (lru_cache _ _ _ _) as [[b0 c]|e]; cbn [bind]; [|done].
  intros [= <- <-]. by exists c.
Qed.


(** ** The jittered interval *)

Lemma half_mean : mean_signal_interval / 2 == 1 # 200.
Proof. reflexivity. Qed.

Lemma one_and_a_half_mean : mean_signal_interval * 3 / 2 == 3 # 200.
Proof. reflexivity. Qed.

Lemma random_uniform_bounds (r : Q) :
  0 <= r -> r < 1 ->
  mean_signal_interval / 2
  <= random_uniform (mean_signal_interval / 2) (mean_signal_interval * 3 / 2) r
  /\ random_uniform (mean_signal_interval / 2) (mean_signal_interval * 3 / 2) r
     <= mean_signal_interval * 3 / 2
  /\ 0 < random_uniform (mean_signal_interval / 2) (mean_signal_interval * 3 / 2) r.
Proof.
  intros H0 H1. unfold random_uniform.
  rewrite half_mean, one_and_a_half_mean. repeat split; lra.
Qed.

Lemma setitimer_armed (which : Z) (i : Q) (P : Process) :
  0 < i -> itimers (setitimer which i i P) !! which = Some (i, i).
Proof.
  intros Hi. unfold setitimer. destruct (Qeq_bool i 0) eqn:Hz.
  - apply Qeq_bool_eq in Hz. lra.
  - cbn [itimers set_itimers]. apply lookup_insert_eq.
Qed.

(** ** The timer handler on a location the filter rejects *)

(** C7: when the filter rejects the location of a timer interrupt, the
    handler returns, the four tables and the three counters are as before,
    [last_signal_time] is the second reading of the clock and
    [last_signal_interval] is a fresh draw between half the mean and one
    and a half times the mean. *)
Theorem cpu_signal_handler_rejected (now now' r : Q) (fr : frame) (w w1 : World)
    (fname : string) :
  cpu_frame_filename fr = Ok fname ->
  should_trace fname w = Ok (false, w1) ->
  0 <= r -> r < 1 ->
  exists w',
    cpu_signal_handler now now' r fr w = Returned w'
    /\ cpu_samples_python (cls w') = cpu_samples_python (cls w)
    /\ cpu_samples_c (cls w') = cpu_samples_c (cls w)
    /\ memory_free_samples (cls w') = memory_free_samples (cls w)
    /\ memory_malloc_samples (cls w') = memory_malloc_samples (cls w)
    /\ total_cpu_samples (cls w') = total_cpu_samples (cls w)
    /\ total_memory_free_samples (cls w') = total_memory_free_samples (cls w)
    /\ total_memory_malloc_samples (cls w') = total_memory_malloc_samples (cls w)
    /\ last_signal_time (cls w') = now'
    /\ last_signal_interval (cls w')
       = random_uniform (mean_signal_interval / 2) (mean_signal_interval * 3 / 2) r
    /\ mean_signal_interval / 2 <= last_signal_interval (cls w')
    /\ last_signal_interval (cls w') <= mean_signal_interval * 3 / 2
    /\ itimers (proc w') !! cpu_timer_signal
       = Some (last_signal_interval (cls w'), last_signal_interval (cls w')).
Proof.
  intros Hfr Hst Hr0 Hr1. unfold cpu_signal_handler.
  rewrite Hfr; cbn [attempt]. rewrite Hst; cbn [attempt negb].
  apply should_trace_Ok in Hst as (c & _ & ->).
  eexists; split; [reflexivity|].
  cbn [cls proc set_proc set_sampling cpu_samples_python cpu_samples_c
       memory_free_samples memory_malloc_samples total_cpu_samples
       total_memory_free_samples total_memory_malloc_samples
       last_signal_time last_signal_interval].
  repeat (split; [reflexivity|]).
  destruct (random_uniform_bounds r Hr0 Hr1) as (Hlo & Hhi & Hpos).
  split; [done|]. split; [done|].
  cbn [set_clock itimers]. by apply setitimer_armed.
Qed.

(** ** What the handlers and the launch do to the world *)

Lemma cpu_signal_handler_world (now now' r : Q) (fr : frame) (w : World) :
  (exists e, cpu_signal_handler now now' r fr w = Raised e w)
  \/ exists fname traced c,
       cpu_frame_filename fr = Ok fname
       /\ lru_cache 128 (should_trace_body (program_path (cls w)) (cwd (proc w)))
            (memo (proc w)) fname = Ok (traced, c)
       /\ let S := cls w in
          let P := set_memo c (proc w) in
          let interval :=
            random_uniform (mean_signal_interval / 2) (mean_signal_interval * 3 / 2) r in
          let py :=
            store (cpu_samples_python S) fname (f_lineno fr)
              (entry 0%Z (cpu_samples_python S) fname (f_lineno fr) + 1)%Z in
          if traced then
            if Qeq_bool (last_signal_interval S) 0 then
              cpu_signal_handler now now' r fr w
              = Raised ZeroDivisionError
                    (mkWorld
                       (set_cpu py
                          (store (cpu_samples_c S) fname (f_lineno fr)
                             (entry 0 (cpu_samples_c S) fname (f_lineno fr)))
                          (total_cpu_samples S) S) P)
            else
              cpu_signal_handler now now' r fr w
              = Returned
                    (mkWorld
                       (set_sampling now' interval
                          (set_cpu py
                             (store (cpu_samples_c S) fname (f_lineno fr)
                                (entry 0 (cpu_samples_c S) fname (f_lineno fr)
                                 + (now - last_signal_time S - last_signal_interval S)
                                   / last_signal_interval S))
                             (total_cpu_samples S
                              + (now - last_signal_time S) / last_signal_interval S)
                             S))
                       (set_clock now' (setitimer cpu_timer_signal interval interval P)))
          else
            cpu_signal_handler now now' r fr w
              = Returned
                  (mkWorld (set_sampling now' interval S)
                     (set_clock now' (setitimer cpu_timer_signal interval interval P))).
Proof.
  cbv zeta. unfold cpu_signal_handler.
  destruct (cpu_frame_filename fr) as [fname|e]; cbn [attempt]; [|by left; eexists].
  destruct (should_trace fname w) as [[traced w1]|e] eqn:Hst; cbn [attempt];
    [|by left; eexists].
  apply should_trace_Ok in Hst as (c & Hc & ->).
  right. exists fname, traced, c. split; [done|]. split; [done|].
  destruct traced; cbn [negb]; [|reflexivity].
  cbn [cls set_proc]. by destruct (Qeq_bool (last_signal_interval (cls w)) 0).
Qed.

Lemma malloc_signal_handler_world (fr : frame) (w : World) :
  (exists e, malloc_signal_handler fr w = Raised e w)
  \/ exists traced c,
       lru_cache 128 (should_trace_body (program_path (cls w)) (cwd (proc w)))
         (memo (proc w)) (co_filename fr) = Ok (traced, c)
       /\ let S := cls w in
          let S' :=
            if traced then
              set_malloc
                (store (memory_malloc_samples S) (co_filename fr) (f_lineno fr)
                   (entry 0%Z (memory_malloc_samples S) (co_filename fr) (f_lineno fr) + 1)%Z)
                (total_memory_malloc_samples S + 1)%Z S
            else S in
          malloc_signal_handler fr w
              = Returned (mkWorld S' (set_memo c (proc w))).
Proof.
  cbv zeta. unfold malloc_signal_handler.
  destruct (should_trace _ w) as [[traced w1]|e] eqn:Hst; cbn [attempt];
    [|by left; eexists].
  apply should_trace_Ok in Hst as (c & Hc & ->).
  right. exists traced, c. split; [done|]. by destruct traced.
Qed.

Lemma free_signal_handler_world (fr : frame) (w : World) :
  (exists e, free_signal_handler fr w = Raised e w)
  \/ exists traced c,
       lru_cache 128 (should_trace_body (program_path (cls w)) (cwd (proc w)))
         (memo (proc w)) (co_filename fr) = Ok (traced, c)
       /\ let S := cls w in
          let S' :=
            if traced then
              set_free
                (store (memory_free_samples S) (co_filename fr) (f_lineno fr)
                   (entry 0%Z (memory_free_samples S) (co_filename fr) (f_lineno fr) + 1)%Z)
                (total_memory_free_samples S + 1)%Z S
            else S in
          free_signal_handler fr w
              = Returned (mkWorld S' (set_memo c (proc w))).
Proof.
  cbv zeta. unfold free_signal_handler.
  destruct (should_trace _ w) as [[traced w1]|e] eqn:Hst; cbn [attempt];
    [|by left; eexists].
  apply should_trace_Ok in Hst as (c & Hc & ->).
  right. exists traced, c. split; [done|]. by destruct traced.
Qed.

Lemma stop_Ok (now : Q) (w : World) :
  stop now w
  = Ok (mkWorld (set_elapsed_time (now - elapsed_time (cls w)) (cls w))
          (set_clock now (disabled (proc w)))).
Proof. unfold stop. by rewrite disable_signals_ok. Qed.

Lemma exit_handler_Ok (w : World) :
  exit_handler w = Ok (set_proc (disabled (proc w)) w).
Proof. unfold exit_handler. by rewrite disable_signals_ok. Qed.

Lemma init_Ok (program : string) (now : Q) (w : World) :
  __init__ program now w
  = Ok (let prog := posixpath.abspath (cwd (proc w)) program in
        mkWorld
          (set_sampling now (last_signal_interval (cls w))
             (set_program prog (posixpath.dirname prog) (cls w)))
          (set_clock now
             (setitimer cpu_timer_signal mean_signal_interval mean_signal_interval
                (set_sigs
                   (<[free_signal := Handler free_handler]>
                      (<[malloc_signal := Handler malloc_handler]>
                         (<[cpu_signal := Handler cpu_handler]> (sigs (proc w)))))
                   (proc w))))).
Proof.
  unfold __init__.
  rewrite !signal_signal_ok by (cbv; (split; congruence) || congruence).
  reflexivity.
Qed.

(** The world that [main_launch] hands to the profiled program. *)
Lemma main_launch_Ok (prog : string) (t0 t1 : Q) (P : Process) (w : World) :
  main_launch prog t0 t1 P = Ok w ->
  cpu_samples_python (cls w) = ∅ /\ cpu_samples_c (cls w) = ∅
  /\ memory_free_samples (cls w) = ∅ /\ memory_malloc_samples (cls w) = ∅
  /\ total_cpu_samples (cls w) = 0
  /\ total_memory_free_samples (cls w) = 0%Z
  /\ total_memory_malloc_samples (cls w) = 0%Z
  /\ last_signal_interval (cls w) = mean_signal_interval
  /\ last_signal_time (cls w) = t0
  /\ elapsed_time (cls w) = t1
  /\ clock (proc w) = t1
  /\ memo (proc w) = memo P.
Proof.
  unfold main_launch. rewrite init_Ok. cbn [bind]. intros [= <-].
  unfold start, setitimer. destruct (Qeq_bool mean_signal_interval 0); cbn; done.
Qed.

(** ** The sampling interval stays in range *)

Lemma deliver_interval (ev : event) (w : World) :
  admissible ev w -> interval_in_range w -> interval_in_range (deliver ev w).
Proof.
  intros Hadm Hw. destruct ev as [now now' r fr|fr|fr|d|now|]; cbn [deliver].
  - destruct (cpu_signal_handler_world now now' r fr w)
      as [[e ->]|(fname & traced & c & _ & _ & Ho)]; [exact Hw|].
    destruct Hadm as (_ & _ & _ & _ & Hr0 & Hr1).
    destruct (random_uniform_bounds r Hr0 Hr1) as (Hlo & Hhi & _).
    cbv zeta in Ho.
    destruct traced; [destruct (Qeq_bool (last_signal_interval (cls w)) 0)|];
      rewrite Ho; cbn [world_after]; (exact Hw || by split).
  - destruct (malloc_signal_handler_world fr w) as [[e ->]|(traced & c & _ & ->)];
      [exact Hw|]. by destruct traced.
  - destruct (free_signal_handler_world fr w) as [[e ->]|(traced & c & _ & ->)];
      [exact Hw|]. by destruct traced.
  - exact Hw.
  - rewrite stop_Ok. exact Hw.
  - rewrite exit_handler_Ok. exact Hw.
Qed.

Lemma reachable_interval_in_range (w : World) :
  reachable w -> interval_in_range w.
Proof.
  induction 1 as [d prog t t0 t1 w _ _ Hl|ev w _ IH Hadm].
  - apply main_launch_Ok in Hl as (_ & _ & _ & _ & _ & _ & _ & Hi & _).
    unfold interval_in_range. rewrite Hi.
    split; [rewrite half_mean|rewrite one_and_a_half_mean];
      unfold mean_signal_interval; lra.
  - by apply deliver_interval.
Qed.

(** C8: in every world a profiled run goes through, and so after every
    rearm of the timer, whether the sample was attributed or skipped,
    [last_signal_interval] lies between half the mean interval and one and
    a half times the mean interval. *)
Theorem last_signal_interval_in_range (w : World) :
  reachable w ->
  mean_signal_interval / 2 <= last_signal_interval (cls w)
  /\ last_signal_interval (cls w) <= mean_signal_interval * 3 / 2.
Proof. intros Hr. exact (reachable_interval_in_range w Hr). Qed.

(** ** Files named like the profiler *)

Lemma store_is_Some {V : Type} (t : gmap string (gmap Z V)) (f f' : string) (l : Z) (v : V) :
  is_Some (store t f l v !! f') -> f' = f \/ is_Some (t !! f').
Proof.
  unfold store. destruct (decide (f = f')) as [->|Hne]; [by left|].
  rewrite lookup_insert_ne by done. by right.
Qed.

Lemma should_trace_body_own_name (ppath dir filename : string) :
  pystr.contains "scalene.py" filename = true ->
  should_trace_body ppath dir filename = Ok false.
Proof.
  intros Hc. destruct filename as [|c0 rest]; [discriminate Hc|].
  unfold should_trace_body. rewrite Hc. by destruct (bool_decide _).
Qed.

Lemma answered_own_name (filename : string) (b : bool) :
  pystr.contains "scalene.py" filename = true -> answered filename b -> b = false.
Proof.
  intros Hc (ppath & dir & Hb).
  rewrite (should_trace_body_own_name _ _ _ Hc) in Hb. congruence.
Qed.

Lemma lru_cache_answered (ppath dir : string) (c c' : list (string * bool))
    (key : string) (v : bool) :
  memo_all answered c ->
  lru_cache 128 (should_trace_body ppath dir) c key = Ok (v, c') ->
  answered key v /\ memo_all answered c'.
Proof.
  intros Hc. apply lru_cache_memo_all; [done|].
  intros b Hb. by exists ppath, dir.
Qed.

Lemma deliver_filter_inv (ev : event) (w : World) :
  filter_inv w -> filter_inv (deliver ev w).
Proof.
  intros [Hm Ht]. destruct ev as [now now' r fr|fr|fr|d|now|]; cbn [deliver].
  - destruct (cpu_signal_handler_world now now' r fr w)
      as [[e ->]|(fname & traced & c & _ & Hc & Ho)]; [by split|].
    apply lru_cache_answered in Hc as [Ha Hm']; [|done].
    cbv zeta in Ho.
    destruct traced; [destruct (Qeq_bool (last_signal_interval (cls w)) 0)|];
      rewrite Ho; cbn [world_after];
      (split; [by unfold setitimer; try destruct (Qeq_bool _ 0)|]); try exact Ht;
      cbn; intros f [H|[H|[H|H]]]; try (apply Ht; tauto);
      apply store_is_Some in H as [->|H]; try done; apply Ht; tauto.
  - destruct (malloc_signal_handler_world fr w) as [[e ->]|(traced & c & Hc & ->)];
      [by split|].
    apply lru_cache_answered in Hc as [Ha Hm']; [|done].
    split; [done|]. destruct traced; [|exact Ht]. cbn.
    intros f [H|[H|[H|H]]]; try (apply Ht; tauto);
      apply store_is_Some in H as [->|H]; try done; apply Ht; tauto.
  - destruct (free_signal_handler_world fr w) as [[e ->]|(traced & c & Hc & ->)];
      [by split|].
    apply lru_cache_answered in Hc as [Ha Hm']; [|done].
    split; [done|]. destruct traced; [|exact Ht]. cbn.
    intros f [H|[H|[H|H]]]; try (apply Ht; tauto);
      apply store_is_Some in H as [->|H]; try done; apply Ht; tauto.
  - by split.
  - rewrite stop_Ok. by split.
  - rewrite exit_handler_Ok. by split.
Qed.

Lemma reachable_filter_inv (w : World) : reachable w -> filter_inv w.
Proof.
  induction 1 as [d prog t t0 t1 w _ _ Hl|ev w _ IH Hadm].
  - apply main_launch_Ok in Hl
      as (Hpy & Hc & Hf & Hm & _ & _ & _ & _ & _ & _ & _ & Hmemo).
    split.
    + rewrite Hmemo. constructor.
    + rewrite Hpy, Hc, Hf, Hm. intros f. rewrite !lookup_empty.
      intros [H|[H|[H|H]]]; by destruct H.
  - by apply deliver_filter_inv.
Qed.

(** C10: during a profiled run, on every file name that contains
    [scalene.py] the filter answers false, and no table ever has an entry
    for such a file. *)
Theorem own_name_never_traced (w : World) (filename : string) :
  reachable w ->
  pystr.contains "scalene.py" filename = true ->
  (exists w', should_trace filename w = Ok (false, w'))
  /\ cpu_samples_python (cls w) !! filename = None
  /\ cpu_samples_c (cls w) !! filename = None
  /\ memory_free_samples (cls w) !! filename = None
  /\ memory_malloc_samples (cls w) !! filename = None.
Proof.
  intros Hr Hc. apply reachable_filter_inv in Hr as [Hm Ht]. split.
  - unfold should_trace, lru_cache.
    destruct (lru_lookup filename (memo (proc w))) as [v|] eqn:Hl.
    + apply lru_lookup_Some in Hl.
      unfold memo_all in Hm. rewrite Forall_forall in Hm.
      rewrite (answered_own_name filename v Hc (Hm _ Hl)). cbn [bind]. by eexists.
    + rewrite (should_trace_body_own_name _ _ _ Hc). cbn [bind]. by eexists.
  - assert (forall {V} (t : gmap string V), (is_Some (t !! filename) -> answered filename true) ->
              t !! filename = None) as Hnone.
    { intros V t Hs. destruct (t !! filename) eqn:E; [|done].
      assert (true = false) by (apply (answered_own_name filename); eauto). done. }
    repeat split; apply Hnone; intros; apply Ht; tauto.
Qed.

(** ** Per-line CPU percentages *)

Lemma entry_store {V : Type} (zero : V) (t : gmap string (gmap Z V))
    (f f' : string) (l l' : Z) (v : V) :
  entry zero (store t f l v) f' l'
  = if decide (f = f' /\ l = l') then v else entry zero t f' l'.
Proof.
  unfold entry, store. destruct (decide (f = f')) as [->|Hf].
  - rewrite lookup_insert_eq. cbn [from_option id].
    destruct (decide (l = l')) as [->|Hl].
    + rewrite lookup_insert_eq. by rewrite decide_True.
    + rewrite lookup_insert_ne by done. rewrite decide_False by tauto. done.
  - rewrite lookup_insert_ne by done. rewrite decide_False by tauto. done.
Qed.

Lemma attributed_share (p : Z) (c total e i : Q) :
  0 < i -> 0 <= e -> inject_Z p + c <= total ->
  inject_Z (p + 1) + (c + (e - i) / i) <= total + e / i.
Proof.
  intros Hi He Hs. rewrite inject_Z_plus.
  assert ((e - i) / i == e / i - 1) as -> by (field; lra).
  change (inject_Z 1) with 1. lra.
Qed.

Lemma other_share (x total e i : Q) :
  0 < i -> 0 <= e -> x <= total -> x <= total + e / i.
Proof.
  intros Hi He Hs. assert (0 <= e / i) by (apply Qle_shift_div_l; lra). lra.
Qed.

Lemma deliver_share_inv (ev : event) (w : World) :
  admissible ev w -> interval_in_range w -> share_inv w -> share_inv (deliver ev w).
Proof.
  intros Hadm [Hlo _] [Ht Hs].
  rewrite half_mean in Hlo.
  destruct ev as [now now' r fr|fr|fr|d|now|]; cbn [deliver].
  - destruct Hadm as (_ & _ & Hnow & Hnow' & _ & _).
    destruct (cpu_signal_handler_world now now' r fr w)
      as [[e ->]|(fname & traced & c & _ & _ & Ho)]; [by split|].
    cbv zeta in Ho. destruct traced.
    + destruct (Qeq_bool (last_signal_interval (cls w)) 0) eqn:Hz.
      { apply Qeq_bool_eq in Hz. lra. }
      rewrite Ho. cbn [world_after]. split.
      { unfold setitimer. destruct (Qeq_bool _ 0); cbn; lra. }
      intros f l. cbn.
      rewrite !entry_store. case_decide as Hfl.
      * destruct Hfl as [<- <-]. apply attributed_share; [lra|lra|apply Hs].
      * apply other_share; [lra|lra|apply Hs].
    + rewrite Ho. cbn [world_after]. split; [|exact Hs].
      unfold setitimer. destruct (Qeq_bool _ 0); cbn; lra.
  - destruct (malloc_signal_handler_world fr w) as [[e ->]|(traced & c & _ & ->)];
      [by split|]. by destruct traced.
  - destruct (free_signal_handler_world fr w) as [[e ->]|(traced & c & _ & ->)];
      [by split|]. by destruct traced.
  - by split.
  - rewrite stop_Ok. cbn in Hadm. split; [cbn; lra|exact Hs].
  - rewrite exit_handler_Ok. by split.
Qed.

Lemma reachable_share_inv (w : World) : reachable w -> share_inv w.
Proof.
  induction 1 as [d prog t t0 t1 w _ H01 Hl|ev w Hr IH Hadm].
  - apply main_launch_Ok in Hl
      as (Hpy & Hc & _ & _ & Htot & _ & _ & _ & Hlst & _ & Hclk & _).
    split; [by rewrite Hlst, Hclk|].
    intros f l. rewrite Hpy, Hc, Htot. unfold entry. rewrite !lookup_empty. cbn.
    rewrite !lookup_empty. cbn.
    change (inject_Z 0) with 0. lra.
  - apply deliver_share_inv; [done| |done].
    by apply reachable_interval_in_range.
Qed.

Lemma launched_reachable : reachable launched.
Proof.
  apply (reachable_launch "/home/u/proj" "main.py" 0 0 0); [lra|lra|].
  vm_compute. reflexivity.
Qed.

Lemma admissible_tick (now r : Q) (fr : frame) :
  0 <= now -> 0 <= r -> r < 1 -> admissible (Timer now now r fr) launched.
Proof.
  intros Hn Hr0 Hr1. cbn [admissible].
  split; [vm_compute; reflexivity|].
  split; [vm_compute; eauto|].
  split; [exact Hn|]. split; [lra|]. by split.
Qed.


(** ** The filter and directories that only look alike *)

(** What the body of the filter accepts. *)
Lemma should_trace_body_true (ppath dir filename : string) :
  should_trace_body ppath dir filename = Ok true
  <-> String.prefix "<" filename = false
      /\ filename <> ""
      /\ pystr.contains "scalene.py" filename = false
      /\ pystr.contains ppath (posixpath.abspath dir filename) = true.
Proof.
  destruct filename as [|c0 rest].
  { cbn. split; [done|]. by intros (_ & ? & _). }
  unfold should_trace_body.
  assert (String.prefix "<" (String c0 rest) = bool_decide (c0 = "<"%char)) as ->.
  { cbn [String.prefix]. destruct (ascii_dec "<" c0) as [<-|Hne].
    - rewrite bool_decide_eq_true_2 by done. by destruct rest.
    - by rewrite bool_decide_eq_false_2. }
  destruct (bool_decide (c0 = "<"%char)).
  { split; [done|]. by intros (? & _). }
  destruct (pystr.contains "scalene.py" (String c0 rest)).
  { split; [done|]. by intros (_ & _ & ? & _). }
  split.
  - intros [= ->]. done.
  - intros (_ & _ & _ & ->). done.
Qed.

Lemma prefix_refl (a : string) : String.prefix a a = true.
Proof.
  induction a as [|c a IH]; [done|]. cbn [String.prefix].
  by destruct (ascii_dec c c).
Qed.

Lemma prefix_app_l (a b s : string) :
  String.prefix (a +:+ b) s = true -> String.prefix a s = true.
Proof.
  revert s. induction a as [|c a IH]; intros s; [by destruct s|].
  change (String c a +:+ b) with (String c (a +:+ b)).
  destruct s as [|c' s]; [done|]. cbn [String.prefix].
  destruct (ascii_dec c c'); [apply IH|done].
Qed.

Lemma contains_prefix (a s : string) :
  String.prefix a s = true -> pystr.contains a s = true.
Proof. intros H. destruct s; cbn [pystr.contains]; by rewrite H. Qed.

(** A path in the root directory or below it has the root as a substring:
    this half of the containment test is what the code does. *)
Lemma spec_contained_accepted (root path : string) :
  spec_contained root path = true -> pystr.contains root path = true.
Proof.
  unfold spec_contained. intros [H|H]%orb_true_iff.
  - apply bool_decide_eq_true in H as ->. apply contains_prefix, prefix_refl.
  - by eapply contains_prefix, prefix_app_l.
Qed.

(** C1 fails on the code: with the program in [/home/u/proj], the file
    [/home/u/proj_old/util.py] is already canonical and absolute, is neither
    the root directory nor below it, and the filter accepts it, because
    [program_path in filename] looks for the root anywhere in the path. *)
Theorem should_trace_accepts_sibling_directory :
  program_path (cls launched) = "/home/u/proj"
  /\ posixpath.abspath (cwd (proc launched)) "/home/u/proj_old/util.py"
     = "/home/u/proj_old/util.py"
  /\ spec_contained (program_path (cls launched)) "/home/u/proj_old/util.py" = false
  /\ filter_answer "/home/u/proj_old/util.py" launched = Ok true
  /\ filter_answer "/srv/home/u/proj/x.py" launched = Ok true
  /\ spec_contained (program_path (cls launched)) "/srv/home/u/proj/x.py" = false.
Proof. repeat split; vm_compute; reflexivity. Qed.

(** ** Frames without a file name *)

(** In every world of a run, a memory signal in a frame without a file
    name makes the handler raise and changes nothing. *)
Lemma malloc_signal_handler_empty_filename (fr : frame) (w : World) :
  reachable w -> co_filename fr = "" ->
  malloc_signal_handler fr w = Raised IndexError w.
Proof.
  intros [Hm _]%reachable_filter_inv Hfr.
  unfold malloc_signal_handler, should_trace, lru_cache. rewrite Hfr.
  destruct (lru_lookup "" (memo (proc w))) as [v|] eqn:Hl; [|reflexivity].
  apply lru_lookup_Some in Hl.
  unfold memo_all in Hm. rewrite Forall_forall in Hm.
  by destruct (Hm _ Hl) as (ppath & dir & Hb).
Qed.

(** C2 fails on the code: a memory signal that arrives in a frame with an
    empty file name makes [should_trace] evaluate [filename[0]] on the empty
    string, and the [IndexError] leaves the handler; the timer handler looks
    one frame up first and raises when that frame has no file name either. *)
Theorem handlers_raise_on_empty_filename :
  malloc_signal_handler eval_frame launched = Raised IndexError launched
  /\ free_signal_handler eval_frame launched = Raised IndexError launched
  /\ cpu_signal_handler (1 # 100) (1 # 100) (1 # 2) nested_eval_frame launched
     = Raised IndexError launched.
Proof. repeat split; vm_compute; reflexivity. Qed.

(** ** The per-file total *)

(** C3 fails on the code: after the early tick the file has one interpreted
    sample and a native weight of -0.0001; the total the report computes is
    0.9999, the total with the native entry clamped at zero is 1. *)
Theorem this_cpu_samples_not_clamped :
  let S := cls (deliver early_tick launched) in
  entry 0 (cpu_samples_c S) "main.py" 3 == - (1 # 10000)
  /\ entry 0%Z (cpu_samples_python S) "main.py" 3 = 1%Z
  /\ this_cpu_samples S "main.py" == 9999 # 10000
  /\ spec_this_file_cpu_samples S "main.py" == 1
  /\ n_cpu_samples_c S "main.py" 3 == 0.
Proof. cbv zeta. repeat split; vm_compute; reflexivity. Qed.

(** ** The memory columns *)

Lemma did_sample_memory_iff (S : Scalene) :
  did_sample_memory S = true
  <-> (2 <= total_memory_free_samples S + total_memory_malloc_samples S)%Z.
Proof. unfold did_sample_memory. rewrite Z.ltb_lt. lia. Qed.

(** C5 fails on the code: after exactly one allocation event, attributed
    and counted, [did_sample_memory] is false and the rows carry no memory
    columns, because the test is [> 1]. *)
Theorem one_memory_event_no_columns :
  let S := cls (deliver one_malloc launched) in
  admissible one_malloc launched
  /\ total_memory_malloc_samples S = 1%Z
  /\ total_memory_free_samples S = 0%Z
  /\ entry 0%Z (memory_malloc_samples S) "main.py" 3 = 1%Z
  /\ did_sample_memory S = false
  /\ row_memory (report_row S "main.py" 3) = None.
Proof. cbv zeta. repeat split; vm_compute; reflexivity. Qed.

(** ** The filter over a run *)

Lemma lru_cache_agrees (ppath dir : string) (c : list (string * bool)) (key : string) :
  memo_agrees ppath dir c ->
  match lru_cache 128 (should_trace_body ppath dir) c key with
  | Ok (v, c') => should_trace_body ppath dir key = Ok v /\ memo_agrees ppath dir c'
  | Raise e => should_trace_body ppath dir key = Raise e
  end.
Proof.
  intros Hc.
  destruct (lru_cache 128 _ c key) as [[v c']|e] eqn:Hl.
  - by apply (lru_cache_memo_all _ _ _ _ _ _ _ Hc) in Hl.
  - unfold lru_cache in Hl. destruct (lru_lookup key c); [done|].
    destruct (should_trace_body ppath dir key); cbn [bind] in Hl; congruence.
Qed.

Lemma filter_answer_settled (ppath dir filename : string) (w : World) :
  settled ppath dir w -> filter_answer filename w = should_trace_body ppath dir filename.
Proof.
  intros (<- & <- & Hc). unfold filter_answer, should_trace.
  pose proof (lru_cache_agrees _ _ _ filename Hc) as H.
  destruct (lru_cache 128 _ _ filename) as [[v c']|e]; cbn [bind].
  - by destruct H as [-> _].
  - by rewrite H.
Qed.

Lemma deliver_settled (ppath dir : string) (ev : event) (w : World) :
  is_chdir ev = false -> settled ppath dir w -> settled ppath dir (deliver ev w).
Proof.
  intros Hev (Hp & Hd & Hc).
  destruct ev as [now now' r fr|fr|fr|d|now|]; cbn [deliver]; [| | |done| |].
  - destruct (cpu_signal_handler_world now now' r fr w)
      as [[e ->]|(fname & traced & c & _ & Hl & Ho)]; [done|].
    rewrite Hp, Hd in Hl.
    pose proof (lru_cache_agrees _ _ _ fname Hc) as H. rewrite Hl in H.
    destruct H as [_ H]. cbv zeta in Ho.
    destruct traced; [destruct (Qeq_bool (last_signal_interval (cls w)) 0)|];
      rewrite Ho; cbn [world_after]; unfold settled, setitimer;
      try destruct (Qeq_bool _ 0); done.
  - destruct (malloc_signal_handler_world fr w) as [[e ->]|(traced & c & Hl & ->)];
      [done|].
    rewrite Hp, Hd in Hl.
    pose proof (lru_cache_agrees _ _ _ (co_filename fr) Hc) as H. rewrite Hl in H.
    destruct H as [_ H]. by destruct traced.
  - destruct (free_signal_handler_world fr w) as [[e ->]|(traced & c & Hl & ->)];
      [done|].
    rewrite Hp, Hd in Hl.
    pose proof (lru_cache_agrees _ _ _ (co_filename fr) Hc) as H. rewrite Hl in H.
    destruct H as [_ H]. by destruct traced.
  - by rewrite stop_Ok.
  - by rewrite exit_handler_Ok.
Qed.

Lemma run_app (evs1 evs2 : list event) (w : World) :
  run (evs1 ++ evs2) w = run evs2 (run evs1 w).
Proof. apply fold_left_app. Qed.

Lemma run_settled (ppath dir : string) (evs : list event) (w : World) :
  forallb (fun ev => negb (is_chdir ev)) evs = true ->
  settled ppath dir w -> settled ppath dir (run evs w).
Proof.
  revert w. induction evs as [|ev evs IH]; intros w Hevs Hw; [done|].
  cbn in Hevs. apply andb_true_iff in Hevs as [Hev Hevs].
  apply negb_true_iff in Hev. cbn [run fold_left].
  apply IH; [done|]. by apply deliver_settled.
Qed.

(** ** What the memo table keeps *)

Lemma lru_remove_app (key : string) (c1 c2 : list (string * bool)) :
  lru_remove key (c1 ++ c2) = lru_remove key c1 ++ lru_remove key c2.
Proof. apply List.filter_app. Qed.

Lemma lru_remove_cons (key : string) (kv : string * bool) (c : list (string * bool)) :
  lru_remove key (kv :: c)
  = if bool_decide (fst kv = key) then lru_remove key c else kv :: lru_remove key c.
Proof. cbn. by destruct (bool_decide _). Qed.

Lemma lru_remove_keys (key x : string) (c : list (string * bool)) :
  x ∈ (lru_remove key c).*1 <-> x ∈ c.*1 /\ x <> key.
Proof.
  induction c as [|[k v] c IH].
  { cbn. rewrite elem_of_nil. tauto. }
  rewrite lru_remove_cons. cbn [fst]. case_bool_decide as Hk.
  - subst k. rewrite IH, fmap_cons, elem_of_cons. cbn [fst].
    split; [tauto|]. intros [[->|Hx] Hne]; [done|tauto].
  - rewrite !fmap_cons, !elem_of_cons, IH. cbn [fst].
    split; [|tauto]. intros [->|[Hx Hne]]; [split; [by left|done]|tauto].
Qed.

Lemma lru_remove_NoDup (key : string) (c : list (string * bool)) :
  NoDup c.*1 -> NoDup (lru_remove key c).*1.
Proof.
  induction c as [|[k v] c IH]; [done|].
  rewrite fmap_cons, NoDup_cons. cbn [fst]. intros [Hk Hc].
  rewrite lru_remove_cons. cbn [fst]. case_bool_decide; [by apply IH|].
  rewrite fmap_cons, NoDup_cons. cbn [fst]. split; [|by apply IH].
  rewrite lru_remove_keys. tauto.
Qed.

Lemma removelast_NoDup (c : list (string * bool)) :
  NoDup c.*1 -> NoDup (List.removelast c).*1.
Proof.
  rewrite List.removelast_firstn_len, fmap_take.
  intros Hc. eapply sublist_NoDup; [exact Hc|apply sublist_take].
Qed.

Lemma removelast_keys (x : string) (c : list (string * bool)) :
  x ∈ (List.removelast c).*1 -> x ∈ c.*1.
Proof.
  rewrite List.removelast_firstn_len, fmap_take.
  intros (i & Hi & _)%elem_of_take. by eapply list_elem_of_lookup_2.
Qed.

Lemma lru_lookup_NoDup (key : string) (v : bool) (c : list (string * bool)) :
  NoDup c.*1 -> (key, v) ∈ c -> lru_lookup key c = Some v.
Proof.
  induction c as [|[k v'] c IH]; [by intros _ ?%elem_of_nil|].
  rewrite fmap_cons, NoDup_cons, elem_of_cons. cbn [fst]. intros [Hk Hc] Hin.
  unfold lru_lookup. cbn [List.find fst]. case_bool_decide as Hkey.
  - subst k. destruct Hin as [[= ->]|Hin]; [done|].
    exfalso. apply Hk. by apply (list_elem_of_fmap_2 fst) in Hin.
  - destruct Hin as [[= -> ->]|Hin]; [done|]. by apply IH.
Qed.

Lemma lru_cache_NoDup (n : nat) (f : string -> result bool)
    (c c' : list (string * bool)) (key : string) (v : bool) :
  NoDup c.*1 -> lru_cache n f c key = Ok (v, c') -> NoDup c'.*1.
Proof.
  intros Hc. unfold lru_cache. destruct (lru_lookup key c) as [v0|] eqn:Hl.
  - intros [= <- <-]. rewrite fmap_cons, NoDup_cons. cbn [fst].
    split; [|by apply lru_remove_NoDup]. rewrite lru_remove_keys. tauto.
  - destruct (f key) as [b|e]; cbn [bind]; [|done]. intros [= <- <-].
    apply lru_lookup_None in Hl.
    rewrite fmap_cons, NoDup_cons. cbn [fst].
    destruct (n <=? length c)%nat; [|done].
    split; [|by apply removelast_NoDup].
    intros Hin. by apply Hl, removelast_keys.
Qed.

Lemma pinned_lookup (f : string) (b : bool) (D : list string) (c : list (string * bool)) :
  pinned f b D c -> lru_lookup f c = Some b.
Proof.
  intros (Hnd & c1 & c2 & -> & _). apply lru_lookup_NoDup; [done|].
  rewrite elem_of_app, elem_of_cons. tauto.
Qed.

Lemma removelast_app_cons {A : Type} (l1 l2 : list A) (x y : A) :
  List.removelast (l1 ++ x :: l2 ++ [y]) = l1 ++ x :: l2.
Proof.
  change (l1 ++ x :: l2 ++ [y]) with (l1 ++ (x :: l2) ++ [y]).
  rewrite app_assoc. apply List.removelast_last.
Qed.

(** A query for [f] or for a file of [D], of which there are at most 127,
    never drops the entry of [f]. *)
Lemma lru_cache_pinned (fn : string -> result bool) (f : string) (b : bool)
    (D : list string) (c c' : list (string * bool)) (key : string) (v : bool) :
  (length D <= 127)%nat ->
  key = f \/ key ∈ D ->
  pinned f b D c ->
  lru_cache 128 fn c key = Ok (v, c') ->
  pinned f b D c' /\ (key = f -> v = b).
Proof.
  intros HD Hkey Hp Hl.
  pose proof (pinned_lookup _ _ _ _ Hp) as Hfb.
  destruct Hp as (Hnd & c1 & c2 & Hc & H1).
  pose proof (lru_cache_NoDup _ _ _ _ _ _ Hnd Hl) as Hnd'.
  unfold lru_cache in Hl. destruct (lru_lookup key c) as [v0|] eqn:Hlk.
  - injection Hl as <- <-.
    destruct (decide (key = f)) as [->|Hne].
    + assert (v0 = b) as -> by congruence.
      split; [|done]. split; [done|].
      exists [], (lru_remove f c). split; [done|]. by intros x ?%elem_of_nil.
    + split; [|done]. split; [done|].
      exists ((key, v0) :: lru_remove key c1), (lru_remove key c2). split.
      * rewrite Hc, lru_remove_app, lru_remove_cons. cbn [fst].
        by rewrite bool_decide_eq_false_2 by done.
      * intros x. rewrite fmap_cons, elem_of_cons. cbn [fst].
        intros [->|Hx]; [tauto|]. apply lru_remove_keys in Hx. apply H1. tauto.
  - destruct (fn key) as [v1|e]; cbn [bind] in Hl; [|done].
    assert (key <> f) as Hne by (intros ->; congruence).
    apply lru_lookup_None in Hlk.
    destruct (128 <=? length c)%nat eqn:Hfull.
    + injection Hl as <- <-. split; [|done]. split; [done|]. clear Hnd'.
      apply Nat.leb_le in Hfull.
      destruct c2 as [|last c2' _] using rev_ind.
      * (* the entry of [f] would be the oldest one *)
        exfalso.
        assert (key ∈ D) as HkD by tauto.
        assert (NoDup (key :: c1.*1)) as Hnd1.
        { apply NoDup_cons. split.
          - intros Hin. apply Hlk. rewrite Hc, fmap_app, elem_of_app. by left.
          - rewrite Hc, fmap_app in Hnd. by apply NoDup_app in Hnd as (? & _). }
        assert (length (key :: c1.*1) <= length D)%nat as Hlen.
        { apply submseteq_length, NoDup_submseteq; [done|].
          intros x [->|Hx]%elem_of_cons; [done|by apply H1]. }
        subst c. rewrite length_app in Hfull.
        cbn [length] in Hfull, Hlen. rewrite length_fmap in Hlen. lia.
      * exists ((key, v1) :: c1), c2'. split.
        -- rewrite Hc. by rewrite removelast_app_cons.
        -- intros x. rewrite fmap_cons, elem_of_cons. cbn [fst].
           intros [->|Hx]; [tauto|by apply H1].
    + injection Hl as <- <-. split; [|done]. split; [done|].
      exists ((key, v1) :: c1), c2. split; [by rewrite Hc|].
      intros x. rewrite fmap_cons, elem_of_cons. cbn [fst].
      intros [->|Hx]; [tauto|by apply H1].
Qed.

(** A successful query leaves its entry at the front of the table. *)
Lemma lru_cache_pins (n : nat) (fn : string -> result bool) (D : list string)
    (c c' : list (string * bool)) (key : string) (v : bool) :
  NoDup c.*1 -> lru_cache n fn c key = Ok (v, c') -> pinned key v D c'.
Proof.
  intros Hnd Hl. split; [by eapply lru_cache_NoDup|].
  unfold lru_cache in Hl. destruct (lru_lookup key c) as [v0|].
  - injection Hl as <- <-. exists [], (lru_remove key c).
    split; [done|]. by intros x ?%elem_of_nil.
  - destruct (fn key) as [v1|e]; cbn [bind] in Hl; [|done].
    destruct (n <=? length c)%nat; injection Hl as <- <-.
    + exists [], (List.removelast c). split; [done|]. by intros x ?%elem_of_nil.
    + exists [], c. split; [done|]. by intros x ?%elem_of_nil.
Qed.

Lemma deliver_memo_NoDup (ev : event) (w : World) :
  NoDup (memo (proc w)).*1 -> NoDup (memo (proc (deliver ev w))).*1.
Proof.
  intros Hw. destruct ev as [now now' r fr|fr|fr|d|now|]; cbn [deliver].
  - destruct (cpu_signal_handler_world now now' r fr w)
      as [[e ->]|(fname & traced & c & _ & Hl & Ho)]; [done|].
    apply lru_cache_NoDup in Hl; [|done]. cbv zeta in Ho.
    destruct traced; [destruct (Qeq_bool (last_signal_interval (cls w)) 0)|];
      rewrite Ho; cbn [world_after]; unfold setitimer;
      try destruct (Qeq_bool _ 0); done.
  - destruct (malloc_signal_handler_world fr w) as [[e ->]|(traced & c & Hl & ->)];
      [done|]. by apply lru_cache_NoDup in Hl.
  - destruct (free_signal_handler_world fr w) as [[e ->]|(traced & c & Hl & ->)];
      [done|]. by apply lru_cache_NoDup in Hl.
  - done.
  - by rewrite stop_Ok.
  - by rewrite exit_handler_Ok.
Qed.

Lemma run_memo_NoDup (evs : list event) (w : World) :
  NoDup (memo (proc w)).*1 -> NoDup (memo (proc (run evs w))).*1.
Proof.
  revert w. induction evs as [|ev evs IH]; intros w Hw; [done|].
  cbn [run fold_left]. by apply IH, deliver_memo_NoDup.
Qed.

Lemma deliver_pinned (f : string) (b : bool) (D : list string) (ev : event) (w : World) :
  (length D <= 127)%nat ->
  (forall g, g ∈ queried ev -> g = f \/ g ∈ D) ->
  pinned f b D (memo (proc w)) -> pinned f b D (memo (proc (deliver ev w))).
Proof.
  intros HD Hq Hw. destruct ev as [now now' r fr|fr|fr|d|now|]; cbn [deliver].
  - destruct (cpu_signal_handler_world now now' r fr w)
      as [[e ->]|(fname & traced & c & Hf & Hl & Ho)]; [done|].
    cbn [queried] in Hq. rewrite Hf in Hq.
    apply (lru_cache_pinned _ f b D) in Hl as [Hl _];
      [|done|apply Hq, list_elem_of_singleton; reflexivity|done].
    cbv zeta in Ho.
    destruct traced; [destruct (Qeq_bool (last_signal_interval (cls w)) 0)|];
      rewrite Ho; cbn [world_after]; unfold setitimer;
      try destruct (Qeq_bool _ 0); done.
  - destruct (malloc_signal_handler_world fr w) as [[e ->]|(traced & c & Hl & ->)];
      [done|].
    by apply (lru_cache_pinned _ f b D) in Hl as [Hl _];
      [|done|apply Hq, list_elem_of_singleton; reflexivity|done].
  - destruct (free_signal_handler_world fr w) as [[e ->]|(traced & c & Hl & ->)];
      [done|].
    by apply (lru_cache_pinned _ f b D) in Hl as [Hl _];
      [|done|apply Hq, list_elem_of_singleton; reflexivity|done].
  - done.
  - by rewrite stop_Ok.
  - by rewrite exit_handler_Ok.
Qed.

Lemma run_pinned (f : string) (b : bool) (D : list string) (evs : list event) (w : World) :
  (length D <= 127)%nat ->
  (forall ev g, ev ∈ evs -> g ∈ queried ev -> g = f \/ g ∈ D) ->
  pinned f b D (memo (proc w)) -> pinned f b D (memo (proc (run evs w))).
Proof.
  intros HD. revert w. induction evs as [|ev evs IH]; intros w Hq Hw; [done|].
  cbn [run fold_left]. apply IH.
  - intros ev' g Hev. apply Hq. by right.
  - apply deliver_pinned; [done| |done]. intros g. apply Hq. by left.
Qed.

Lemma admissibleb_sound (ev : event) (w : World) :
  admissibleb ev w = true -> admissible ev w.
Proof.
  destruct ev as [now now' r fr|fr|fr|d|now|]; cbn [admissibleb admissible];
    rewrite ?andb_true_iff, ?bool_decide_eq_true, ?Qle_bool_iff, ?negb_true_iff; try tauto.
  intros (((((H1 & H2) & H3) & H4) & H5) & H6). repeat split; try done.
  apply Qnot_le_lt. intros Hle. apply Qle_bool_iff in Hle. congruence.
Qed.

Lemma reachable_run (evs : list event) (w : World) :
  reachable w -> admissible_run evs w = true -> reachable (run evs w).
Proof.
  revert w. induction evs as [|ev evs IH]; intros w Hw Hevs; [done|].
  cbn [admissible_run] in Hevs. apply andb_true_iff in Hevs as [Hev Hevs].
  cbn [run fold_left]. apply IH; [|done].
  apply reachable_deliver; [done|]. by apply admissibleb_sound.
Qed.

(** C9, as stated, fails: the program's own file, reported under the
    relative name [main.py], is accepted at the start of the run; after a
    change of directory and samples in 128 other files its entry has left
    the memo table, the name resolves to [/tmp/main.py], and the filter
    rejects it. *)
Lemma should_trace_changes_its_answer :
  reachable launched
  /\ reachable (run wandering_run launched)
  /\ filter_answer "main.py" launched = Ok true
  /\ filter_answer "main.py" (run wandering_run launched) = Ok false.
Proof.
  split; [exact launched_reachable|]. split.
  - apply reachable_run; [exact launched_reachable|]. vm_compute. reflexivity.
  - split; vm_compute; reflexivity.
Qed.

(** C9, amended: from the launch on, (1) as long as the working directory
    is not changed, the filter gives the same answer for the same file name
    at any two points of the run, however many file names are queried; and
    (2) whatever happens to the working directory, a call that answered [b]
    is followed by the answer [b] as long as at most 127 other distinct file
    names are queried in between. *)
Theorem should_trace_stable_answer (d prog : string) (t t0 t1 : Q) (w0 : World)
    (filename : string) :
  main_launch prog t0 t1 (fresh_process d t) = Ok w0 ->
  (forall evs1 evs2,
     forallb (fun ev => negb (is_chdir ev)) (evs1 ++ evs2) = true ->
     filter_answer filename (run (evs1 ++ evs2) w0)
     = filter_answer filename (run evs1 w0))
  /\ (forall evs1 evs2 b w1 D,
        should_trace filename (run evs1 w0) = Ok (b, w1) ->
        (length D <= 127)%nat ->
        (forall ev g, ev ∈ evs2 -> g ∈ queried ev -> g = filename \/ g ∈ D) ->
        filter_answer filename (run evs2 w1) = Ok b).
Proof.
  intros Hl.
  apply main_launch_Ok in Hl
    as (_ & _ & _ & _ & _ & _ & _ & _ & _ & _ & _ & Hmemo).
  cbn [memo fresh_process] in Hmemo. split.
  - intros evs1 evs2 Hevs.
    assert (settled (program_path (cls w0)) (cwd (proc w0)) w0) as Hs.
    { repeat split. rewrite Hmemo. constructor. }
    rewrite forallb_app in Hevs. apply andb_true_iff in Hevs as [H1 H2].
    rewrite run_app.
    rewrite (filter_answer_settled (program_path (cls w0)) (cwd (proc w0)))
      by (by apply run_settled, run_settled).
    rewrite (filter_answer_settled (program_path (cls w0)) (cwd (proc w0)))
      by (by apply run_settled).
    reflexivity.
  - intros evs1 evs2 b w1 D Hst HD Hq.
    assert (NoDup (memo (proc (run evs1 w0))).*1) as Hnd.
    { apply run_memo_NoDup. rewrite Hmemo. constructor. }
    apply should_trace_Ok in Hst as (c & Hc & ->).
    apply (lru_cache_pins _ _ D) in Hc; [|done].
    set (w1 := set_proc (set_memo c (proc (run evs1 w0))) (run evs1 w0)).
    assert (pinned filename b D (memo (proc (run evs2 w1)))) as Hp
      by (by apply run_pinned).
    apply pinned_lookup in Hp.
    unfold filter_answer, should_trace, lru_cache. by rewrite Hp.
Qed.

(** The amended C9 on the program's own file name. *)
Lemma should_trace_stable_answer_witness :
  main_launch "main.py" 0 0 (fresh_process "/home/u/proj" 0) = Ok launched
  /\ (forall evs1 evs2,
        forallb (fun ev => negb (is_chdir ev)) (evs1 ++ evs2) = true ->
        filter_answer "main.py" (run (evs1 ++ evs2) launched)
        = filter_answer "main.py" (run evs1 launched))
  /\ (forall evs1 evs2 b w1 D,
        should_trace "main.py" (run evs1 launched) = Ok (b, w1) ->
        (length D <= 127)%nat ->
        (forall ev g, ev ∈ evs2 -> g ∈ queried ev -> g = "main.py" \/ g ∈ D) ->
        filter_answer "main.py" (run evs2 w1) = Ok b).
Proof.
  assert (main_launch "main.py" 0 0 (fresh_process "/home/u/proj" 0) = Ok launched)
    as Hl by (vm_compute; reflexivity).
  split; [exact Hl|].
  exact (should_trace_stable_answer "/home/u/proj" "main.py" 0 0 0 launched "main.py" Hl).
Defined.

(** ** Instances on a concrete run *)

(** C7 on a timer interrupt inside a library file. *)
Lemma cpu_signal_handler_rejected_witness :
  cpu_frame_filename library_frame = Ok "/usr/lib/python3/os.py"
  /\ should_trace "/usr/lib/python3/os.py" launched = Ok (false, launched_after_os)
  /\ exists w',
       cpu_signal_handler (1 # 100) (101 # 10000) (1 # 2) library_frame launched
       = Returned w'
       /\ cpu_samples_python (cls w') = cpu_samples_python (cls launched)
       /\ cpu_samples_c (cls w') = cpu_samples_c (cls launched)
       /\ memory_free_samples (cls w') = memory_free_samples (cls launched)
       /\ memory_malloc_samples (cls w') = memory_malloc_samples (cls launched)
       /\ total_cpu_samples (cls w') = total_cpu_samples (cls launched)
       /\ total_memory_free_samples (cls w') = total_memory_free_samples (cls launched)
       /\ total_memory_malloc_samples (cls w') = total_memory_malloc_samples (cls launched)
       /\ last_signal_time (cls w') = 101 # 10000
       /\ last_signal_interval (cls w')
          = random_uniform (mean_signal_interval / 2) (mean_signal_interval * 3 / 2) (1 # 2)
       /\ mean_signal_interval / 2 <= last_signal_interval (cls w')
       /\ last_signal_interval (cls w') <= mean_signal_interval * 3 / 2
       /\ itimers (proc w') !! cpu_timer_signal
          = Some (last_signal_interval (cls w'), last_signal_interval (cls w')).
Proof.
  assert (cpu_frame_filename library_frame = Ok "/usr/lib/python3/os.py") as Hf
    by reflexivity.
  assert (should_trace "/usr/lib/python3/os.py" launched = Ok (false, launched_after_os))
    as Hs by (vm_compute; reflexivity).
  split; [exact Hf|]. split; [exact Hs|].
  apply (cpu_signal_handler_rejected (1 # 100) (101 # 10000) (1 # 2) library_frame
           launched launched_after_os "/usr/lib/python3/os.py" Hf Hs); lra.
Defined.

(** C8 after the early tick. *)
Lemma last_signal_interval_in_range_witness :
  reachable (deliver early_tick launched)
  /\ mean_signal_interval / 2 <= last_signal_interval (cls (deliver early_tick launched))
  /\ last_signal_interval (cls (deliver early_tick launched))
     <= mean_signal_interval * 3 / 2.
Proof.
  assert (reachable (deliver early_tick launched)) as Hr.
  { apply reachable_deliver; [exact launched_reachable|].
    apply admissible_tick; lra. }
  split; [exact Hr|]. exact (last_signal_interval_in_range _ Hr).
Defined.

(** C10 on a file of the program whose name ends in [scalene.py]. *)
Lemma own_name_never_traced_witness :
  reachable (deliver one_malloc launched)
  /\ pystr.contains "scalene.py" "/home/u/proj/myscalene.py" = true
  /\ (exists w', should_trace "/home/u/proj/myscalene.py" (deliver one_malloc launched)
                 = Ok (false, w'))
  /\ cpu_samples_python (cls (deliver one_malloc launched)) !! "/home/u/proj/myscalene.py"
     = None
  /\ cpu_samples_c (cls (deliver one_malloc launched)) !! "/home/u/proj/myscalene.py"
     = None
  /\ memory_free_samples (cls (deliver one_malloc launched)) !! "/home/u/proj/myscalene.py"
     = None
  /\ memory_malloc_samples (cls (deliver one_malloc launched))
       !! "/home/u/proj/myscalene.py" = None.
Proof.
  assert (reachable (deliver one_malloc launched)) as Hr.
  { apply reachable_deliver; [exact launched_reachable|]. vm_compute. reflexivity. }
  assert (pystr.contains "scalene.py" "/home/u/proj/myscalene.py" = true) as Hc
    by reflexivity.
  split; [exact Hr|]. split; [exact Hc|].
  exact (own_name_never_traced _ _ Hr Hc).
Defined.


(** * Further properties of the code *)

(** The cases of an event: a handler that raises at once, the timer handler
    on a zero interval, on an accepted and on a rejected location, a memory
    handler on an accepted and on a rejected location, and the lifecycle
    events. *)
Ltac deliver_cases ev w :=
  destruct ev as [now now' r fr|fr|fr|d|now|]; cbn [deliver];
  [ let Ho := fresh "Ho" in
    destruct (cpu_signal_handler_world now now' r fr w)
      as [[? ->]|(fname & traced & c & Hfname & Hcache & Ho)];
    [|cbv zeta in Ho; destruct traced;
      [destruct (Qeq_bool (last_signal_interval (cls w)) 0) eqn:Hzero|];
      rewrite Ho; clear Ho];
    cbn [world_after]
  | destruct (malloc_signal_handler_world fr w)
      as [[? ->]|(traced & c & Hcache & ->)];
    [|destruct traced]; cbn [world_after]
  | destruct (free_signal_handler_world fr w)
      as [[? ->]|(traced & c & Hcache & ->)];
    [|destruct traced]; cbn [world_after]
  |
  | rewrite stop_Ok
  | rewrite exit_handler_Ok ].

(** ** [disable_signals] *)

(** X1: [disable_signals] always returns; afterwards the two memory signals
    and signal 1 ([SIGHUP], the number of the timer constant) are ignored
    and the virtual timer is cleared, while the binding of the timer's own
    signal [SIGVTALRM] is what it was. *)
Theorem disable_signals_leaves_cpu_handler (P : Process) :
  exists P',
    disable_signals P = Ok P'
    /\ sigs P' !! malloc_signal = Some SIG_IGN
    /\ sigs P' !! free_signal = Some SIG_IGN
    /\ sigs P' !! signal.SIGHUP = Some SIG_IGN
    /\ sigs P' !! cpu_signal = sigs P !! cpu_signal
    /\ itimers P' !! cpu_timer_signal = None
    /\ cwd P' = cwd P /\ memo P' = memo P.
Proof.
  rewrite disable_signals_ok. eexists; split; [reflexivity|].
  unfold disabled; cbn [sigs itimers cwd memo].
  repeat split.
  - rewrite lookup_insert_ne by done. by rewrite lookup_insert_eq.
  - by rewrite lookup_insert_eq.
  - do 2 (rewrite lookup_insert_ne by done). by rewrite lookup_insert_eq.
  - by do 3 (rewrite lookup_insert_ne by done).
  - by rewrite lookup_delete_eq.
Qed.

(** ** After [stop] *)

Lemma disabled_signals_off (P : Process) : signals_off (disabled P).
Proof.
  unfold signals_off, disabled; cbn [sigs itimers]. repeat split.
  - rewrite lookup_insert_ne by done. by rewrite lookup_insert_eq.
  - by rewrite lookup_insert_eq.
  - by rewrite lookup_delete_eq.
Qed.

(** ** The elapsed time of a run *)

Lemma deliver_keeps_elapsed_time (ev : event) (w : World) :
  is_stop ev = false ->
  elapsed_time (cls (deliver ev w)) = elapsed_time (cls w)
  /\ program_path (cls (deliver ev w)) = program_path (cls w).
Proof. intros Hev. deliver_cases ev w; done. Qed.

Lemma deliver_keeps_program_path (ev : event) (w : World) :
  program_path (cls (deliver ev w)) = program_path (cls w).
Proof. deliver_cases ev w; done. Qed.

Lemma run_keeps_program_path (evs : list event) (w : World) :
  program_path (cls (run evs w)) = program_path (cls w).
Proof.
  revert w. induction evs as [|ev evs IH]; intros w; [done|].
  cbn [run fold_left]. fold (run evs (deliver ev w)).
  by rewrite IH, deliver_keeps_program_path.
Qed.

Lemma run_keeps_elapsed_time (evs : list event) (w : World) :
  forallb (fun ev => negb (is_stop ev)) evs = true ->
  elapsed_time (cls (run evs w)) = elapsed_time (cls w).
Proof.
  revert w. induction evs as [|ev evs IH]; intros w Hevs; [done|].
  cbn in Hevs. apply andb_true_iff in Hevs as [Hev Hevs].
  apply negb_true_iff in Hev. cbn [run fold_left]. fold (run evs (deliver ev w)).
  rewrite IH by done. by apply deliver_keeps_elapsed_time.
Qed.

(** X3: when [main] launches the program with [start] reading the clock at
    [t1], the program runs through any events, and [main] then finishes
    with [stop] reading the clock at [t2], the profiler holds
    [elapsed_time = t2 - t1], its signals are off, and the decision to
    report is the one the counters at the end of the run give. *)
Theorem main_elapsed_time (prog original_path : string) (t0 t1 t2 : Q) (P : Process)
    (w0 : World) (evs : list event) :
  main_launch prog t0 t1 P = Ok w0 ->
  forallb (fun ev => negb (is_stop ev)) evs = true ->
  exists w2,
    main_finish original_path t2 (run evs w0)
    = Ok (w2, main_reports (cls (run evs w0)))
    /\ elapsed_time (cls w2) = t2 - t1
    /\ samples (cls w2) = samples (cls (run evs w0))
    /\ signals_off (proc w2).
Proof.
  intros Hl Hevs.
  apply main_launch_Ok in Hl as (_ & _ & _ & _ & _ & _ & _ & _ & _ & Hel & _).
  unfold main_finish. rewrite stop_Ok. cbn [bind].
  eexists. split; [reflexivity|].
  cbn [cls set_proc elapsed_time set_elapsed_time proc].
  rewrite run_keeps_elapsed_time by done. rewrite Hel.
  split; [done|]. split; [done|]. apply disabled_signals_off.
Qed.

(** X3 on the run with the late tick, finished at 30 ms. *)
Lemma main_elapsed_time_witness :
  main_launch "main.py" 0 0 (fresh_process "/home/u/proj" 0) = Ok launched
  /\ exists w2,
       main_finish "/home/u" (3 # 100) (run [late_tick] launched)
       = Ok (w2, main_reports (cls (run [late_tick] launched)))
       /\ elapsed_time (cls w2) = (3 # 100) - 0
       /\ samples (cls w2) = samples (cls (run [late_tick] launched))
       /\ signals_off (proc w2).
Proof.
  assert (main_launch "main.py" 0 0 (fresh_process "/home/u/proj" 0) = Ok launched)
    as Hl by (vm_compute; reflexivity).
  split; [exact Hl|].
  exact (main_elapsed_time "main.py" "/home/u" 0 0 (3 # 100) _ launched [late_tick] Hl
           eq_refl).
Defined.

(** ** The size of the memo table *)

Lemma lru_remove_shorter (key : string) (v : bool) (c : list (string * bool)) :
  lru_lookup key c = Some v -> (length (lru_remove key c) < length c)%nat.
Proof.
  intros Hin%lru_lookup_Some. induction c as [|[k v'] c IH]; [by apply elem_of_nil in Hin|].
  rewrite lru_remove_cons. cbn [fst length].
  pose proof (List.filter_length_le (fun kv => negb (bool_decide (fst kv = key))) c) as Hle.
  fold (lru_remove key c) in Hle.
  case_bool_decide as Hk; [lia|].
  apply elem_of_cons in Hin as [[= <- <-]|Hin]; [done|].
  cbn [length]. specialize (IH Hin). lia.
Qed.

Lemma lru_cache_length (n : nat) (f : string -> result bool)
    (c c' : list (string * bool)) (key : string) (v : bool) :
  (0 < n)%nat -> (length c <= n)%nat ->
  lru_cache n f c key = Ok (v, c') -> (length c' <= n)%nat.
Proof.
  intros Hn Hc. unfold lru_cache. destruct (lru_lookup key c) as [v0|] eqn:Hl.
  - intros [= <- <-]. apply lru_remove_shorter in Hl. cbn [length]. lia.
  - destruct (f key) as [b|e]; cbn [bind]; [|done].
    destruct (n <=? length c)%nat eqn:Hfull; intros [= <- <-]; cbn [length].
    + apply Nat.leb_le in Hfull. rewrite List.removelast_firstn_len, length_take. lia.
    + apply Nat.leb_gt in Hfull. lia.
Qed.

Lemma setitimer_keeps (which : Z) (a b : Q) (P : Process) :
  memo (setitimer which a b P) = memo P
  /\ cwd (setitimer which a b P) = cwd P
  /\ sigs (setitimer which a b P) = sigs P
  /\ clock (setitimer which a b P) = clock P.
Proof. unfold setitimer. by destruct (Qeq_bool a 0). Qed.

Lemma memo_setitimer (which : Z) (a b : Q) (P : Process) :
  memo (setitimer which a b P) = memo P.
Proof. apply setitimer_keeps. Qed.

Lemma deliver_memo_length (ev : event) (w : World) :
  (length (memo (proc w)) <= 128)%nat -> (length (memo (proc (deliver ev w))) <= 128)%nat.
Proof.
  intros Hw.
  deliver_cases ev w; try done;
    cbn [memo set_clock proc]; rewrite ?memo_setitimer; cbn [memo set_memo];
    by (eapply lru_cache_length; [|exact Hw|exact Hcache]; lia).
Qed.

(** X4: in every world of a profiled run the memo table of [should_trace]
    holds at most 128 entries, no two of them for the same file name. *)
Theorem memo_within_capacity (w : World) :
  reachable w ->
  (length (memo (proc w)) <= 128)%nat /\ NoDup (memo (proc w)).*1.
Proof.
  induction 1 as [d prog t t0 t1 w _ _ Hl|ev w _ [IHl IHn] Hadm].
  - apply main_launch_Ok in Hl
      as (_ & _ & _ & _ & _ & _ & _ & _ & _ & _ & _ & ->).
    split; [cbn; lia|constructor].
  - split; [by apply deliver_memo_length|by apply deliver_memo_NoDup].
Qed.

(** X4 after the wandering run, which asks about 129 file names. *)
Lemma memo_within_capacity_witness :
  reachable (run wandering_run launched)
  /\ (length (memo (proc (run wandering_run launched))) <= 128)%nat
  /\ NoDup (memo (proc (run wandering_run launched))).*1.
Proof.
  assert (reachable (run wandering_run launched)) as Hr.
  { apply reachable_run; [exact launched_reachable|]. vm_compute. reflexivity. }
  split; [exact Hr|]. exact (memo_within_capacity _ Hr).
Defined.

(** ** Which files get samples *)

Lemma lru_cache_answered_by (ppath dir : string) (c c' : list (string * bool))
    (key : string) (v : bool) :
  memo_all (answered_by ppath) c ->
  lru_cache 128 (should_trace_body ppath dir) c key = Ok (v, c') ->
  answered_by ppath key v /\ memo_all (answered_by ppath) c'.
Proof.
  intros Hc. apply lru_cache_memo_all; [done|].
  intros b Hb. by exists dir.
Qed.

Lemma deliver_scoped_inv (ev : event) (w : World) :
  scoped_inv w -> scoped_inv (deliver ev w).
Proof.
  intros [Hm Ht]. unfold scoped_inv. rewrite deliver_keeps_program_path.
  deliver_cases ev w; try (by split);
    apply lru_cache_answered_by in Hcache as [Ha Hm']; [|done| |done| |done| |done| |done
      | |done| |done];
    (split; [by cbn [proc set_clock memo]; rewrite ?memo_setitimer|]);
    try exact Ht;
    cbn; intros f [H|[H|[H|H]]]; try (apply Ht; tauto);
    apply store_is_Some in H as [->|H]; try done; apply Ht; tauto.
Qed.

Lemma reachable_scoped_inv (w : World) : reachable w -> scoped_inv w.
Proof.
  induction 1 as [d prog t t0 t1 w _ _ Hl|ev w _ IH Hadm].
  - apply main_launch_Ok in Hl
      as (Hpy & Hc & Hf & Hm & _ & _ & _ & _ & _ & _ & _ & Hmemo).
    split.
    + rewrite Hmemo. constructor.
    + rewrite Hpy, Hc, Hf, Hm. intros f. rewrite !lookup_empty.
      intros [H|[H|[H|H]]]; by destruct H.
  - by apply deliver_scoped_inv.
Qed.

(** X5: in every world of a profiled run, a file that has an entry in any
    of the four tables has a name that is not empty, does not start with
    [<], does not contain [scalene.py], and that, resolved in some working
    directory, contains the program path of the profiler. *)
Theorem tables_hold_accepted_files (w : World) (f : string) :
  reachable w ->
  is_Some (cpu_samples_python (cls w) !! f) \/ is_Some (cpu_samples_c (cls w) !! f)
  \/ is_Some (memory_free_samples (cls w) !! f)
  \/ is_Some (memory_malloc_samples (cls w) !! f) ->
  f <> ""
  /\ String.prefix "<" f = false
  /\ pystr.contains "scalene.py" f = false
  /\ exists dir,
       pystr.contains (program_path (cls w)) (posixpath.abspath dir f) = true.
Proof.
  intros [_ Ht]%reachable_scoped_inv Hf.
  destruct (Ht f Hf) as [dir Hb].
  apply should_trace_body_true in Hb as (H1 & H2 & H3 & H4).
  repeat split; try done. by exists dir.
Qed.

(** X5 for the program's own file after one allocation signal. *)
Lemma tables_hold_accepted_files_witness :
  reachable (deliver one_malloc launched)
  /\ (is_Some (cpu_samples_python (cls (deliver one_malloc launched)) !! "main.py")
      \/ is_Some (cpu_samples_c (cls (deliver one_malloc launched)) !! "main.py")
      \/ is_Some (memory_free_samples (cls (deliver one_malloc launched)) !! "main.py")
      \/ is_Some (memory_malloc_samples (cls (deliver one_malloc launched)) !! "main.py"))
  /\ "main.py" <> ""
  /\ String.prefix "<" "main.py" = false
  /\ pystr.contains "scalene.py" "main.py" = false
  /\ exists dir,
       pystr.contains (program_path (cls (deliver one_malloc launched)))
         (posixpath.abspath dir "main.py") = true.
Proof.
  assert (reachable (deliver one_malloc launched)) as Hr.
  { apply reachable_deliver; [exact launched_reachable|]. vm_compute. reflexivity. }
  assert (is_Some (cpu_samples_python (cls (deliver one_malloc launched)) !! "main.py")
          \/ is_Some (cpu_samples_c (cls (deliver one_malloc launched)) !! "main.py")
          \/ is_Some (memory_free_samples (cls (deliver one_malloc launched)) !! "main.py")
          \/ is_Some (memory_malloc_samples (cls (deliver one_malloc launched)) !! "main.py"))
    as Hs.
  { right. right. right. vm_compute. eauto. }
  split; [exact Hr|]. split; [exact Hs|].
  exact (tables_hold_accepted_files _ "main.py" Hr Hs).
Defined.

(** ** Synthetic and empty file names *)

Lemma should_trace_body_synthetic (ppath dir filename : string) :
  String.prefix "<" filename = true ->
  should_trace_body ppath dir filename = Ok false.
Proof.
  destruct filename as [|c0 rest]; [done|].
  cbn [String.prefix]. destruct (ascii_dec "<" c0) as [<-|]; [|done].
  intros _. unfold should_trace_body. by rewrite bool_decide_eq_true_2.
Qed.

(** X6: in every world of a profiled run the filter answers false on a
    file name that starts with [<], and raises [IndexError] on the empty
    file name, changing nothing. *)
Theorem should_trace_synthetic_and_empty (w : World) (filename : string) :
  reachable w ->
  String.prefix "<" filename = true ->
  (exists w', should_trace filename w = Ok (false, w'))
  /\ should_trace "" w = Raise IndexError.
Proof.
  intros [Hm _]%reachable_filter_inv Hp.
  unfold memo_all in Hm. rewrite Forall_forall in Hm. split.
  - unfold should_trace, lru_cache.
    destruct (lru_lookup filename (memo (proc w))) as [v|] eqn:Hl.
    + apply lru_lookup_Some in Hl. destruct (Hm _ Hl) as (ppath & dir & Hb).
      cbn [fst snd] in Hb. rewrite should_trace_body_synthetic in Hb by done.
      injection Hb as <-. cbn [bind]. by eexists.
    + rewrite should_trace_body_synthetic by done. cbn [bind]. by eexists.
  - unfold should_trace, lru_cache.
    destruct (lru_lookup "" (memo (proc w))) as [v|] eqn:Hl; [|reflexivity].
    apply lru_lookup_Some in Hl. by destruct (Hm _ Hl) as (ppath & dir & Hb).
Qed.

(** X6 on the name Python gives to code compiled from a string. *)
Lemma should_trace_synthetic_and_empty_witness :
  reachable launched
  /\ String.prefix "<" "<string>" = true
  /\ (exists w', should_trace "<string>" launched = Ok (false, w'))
  /\ should_trace "" launched = Raise IndexError.
Proof.
  split; [exact launched_reachable|]. split; [reflexivity|].
  exact (should_trace_synthetic_and_empty launched "<string>" launched_reachable eq_refl).
Defined.

(** ** Absolute file names *)

Lemma should_trace_body_absolute (ppath dir dir' filename : string) :
  posixpath.isabs filename = true ->
  should_trace_body ppath dir filename = should_trace_body ppath dir' filename.
Proof.
  intros Ha. unfold should_trace_body, posixpath.abspath. by rewrite Ha.
Qed.

Lemma lru_cache_absolute (ppath dir : string) (c c' : list (string * bool))
    (key : string) (v : bool) :
  memo_all
    (fun k v => posixpath.isabs k = true -> forall d, should_trace_body ppath d k = Ok v) c ->
  lru_cache 128 (should_trace_body ppath dir) c key = Ok (v, c') ->
  memo_all
    (fun k v => posixpath.isabs k = true -> forall d, should_trace_body ppath d k = Ok v) c'.
Proof.
  intros Hc Hl.
  eapply (lru_cache_memo_all
            (fun k v => posixpath.isabs k = true ->
                        forall d, should_trace_body ppath d k = Ok v)); [exact Hc| |exact Hl].
  intros b Hb Ha d. by rewrite (should_trace_body_absolute _ d dir).
Qed.

Lemma deliver_absolute_inv (ppath : string) (ev : event) (w : World) :
  absolute_inv ppath w -> absolute_inv ppath (deliver ev w).
Proof.
  intros [Hp Hm]. split; [by rewrite deliver_keeps_program_path|].
  rewrite <- Hp in Hm |- *.
  deliver_cases ev w; try done;
    cbn [proc set_clock memo]; rewrite ?memo_setitimer; cbn [memo set_memo];
    by eapply lru_cache_absolute.
Qed.

Lemma run_absolute_inv (ppath : string) (evs : list event) (w : World) :
  absolute_inv ppath w -> absolute_inv ppath (run evs w).
Proof.
  revert w. induction evs as [|ev evs IH]; intros w Hw; [done|].
  cbn [run fold_left]. by apply IH, deliver_absolute_inv.
Qed.

Lemma filter_answer_absolute (ppath dir filename : string) (w : World) :
  absolute_inv ppath w -> posixpath.isabs filename = true ->
  filter_answer filename w = should_trace_body ppath dir filename.
Proof.
  intros [<- Hm] Ha. unfold filter_answer, should_trace, lru_cache.
  destruct (lru_lookup filename (memo (proc w))) as [v|] eqn:Hl.
  - apply lru_lookup_Some in Hl.
    unfold memo_all in Hm. rewrite Forall_forall in Hm.
    cbn [bind]. symmetry. by apply (Hm _ Hl).
  - rewrite (should_trace_body_absolute _ dir (cwd (proc w))) by done.
    by destruct (should_trace_body _ _ filename).
Qed.

(** X7: for an absolute file name the filter gives the same answer at
    every point of a run, whatever the events, changes of the working
    directory and any number of other queries included. *)
Theorem absolute_names_have_one_answer (prog : string) (t0 t1 : Q) (d : string) (t : Q)
    (w0 : World) (filename : string) (evs : list event) :
  main_launch prog t0 t1 (fresh_process d t) = Ok w0 ->
  posixpath.isabs filename = true ->
  filter_answer filename (run evs w0) = filter_answer filename w0.
Proof.
  intros Hl Ha.
  apply main_launch_Ok in Hl
    as (_ & _ & _ & _ & _ & _ & _ & _ & _ & _ & _ & Hmemo).
  assert (absolute_inv (program_path (cls w0)) w0) as Hw.
  { split; [done|]. rewrite Hmemo. constructor. }
  rewrite (filter_answer_absolute _ "/" _ _ (run_absolute_inv _ evs _ Hw) Ha).
  by rewrite (filter_answer_absolute _ "/" _ _ Hw Ha).
Qed.

(** X7 on the absolute name of the program across the wandering run. *)
Lemma absolute_names_have_one_answer_witness :
  main_launch "main.py" 0 0 (fresh_process "/home/u/proj" 0) = Ok launched
  /\ posixpath.isabs "/home/u/proj/main.py" = true
  /\ filter_answer "/home/u/proj/main.py" (run wandering_run launched)
     = filter_answer "/home/u/proj/main.py" launched.
Proof.
  assert (main_launch "main.py" 0 0 (fresh_process "/home/u/proj" 0) = Ok launched)
    as Hl by (vm_compute; reflexivity).
  split; [exact Hl|]. split; [reflexivity|].
  exact (absolute_names_have_one_answer "main.py" 0 0 "/home/u/proj" 0 launched
           "/home/u/proj/main.py" wandering_run Hl eq_refl).
Defined.

(** ** Entries of the tables *)

Lemma cell_store {V : Type} (t : gmap string (gmap Z V)) (f f' : string) (l l' : Z) (v : V) :
  cell (store t f l v) f' l'
  = if decide (f = f' /\ l = l') then Some v else cell t f' l'.
Proof.
  unfold cell, store. destruct (decide (f = f')) as [->|Hf].
  - rewrite lookup_insert_eq. cbn [from_option id].
    destruct (decide (l = l')) as [->|Hl].
    + rewrite lookup_insert_eq. by rewrite decide_True.
    + rewrite lookup_insert_ne by done. rewrite decide_False by tauto. done.
  - rewrite lookup_insert_ne by done. rewrite decide_False by tauto. done.
Qed.

Lemma entry_cell {V : Type} (zero : V) (t : gmap string (gmap Z V)) (f : string) (l : Z) :
  entry zero t f l = default zero (cell t f l).
Proof. reflexivity. Qed.

Lemma store_file_is_Some {V : Type} (t : gmap string (gmap Z V)) (f f' : string)
    (l : Z) (v : V) :
  is_Some (store t f l v !! f') <-> f' = f \/ is_Some (t !! f').
Proof.
  unfold store. destruct (decide (f = f')) as [->|Hne].
  - rewrite lookup_insert_eq. split; [by left|by eexists].
  - rewrite lookup_insert_ne by done. split; [by right|]. by intros [->|].
Qed.

Lemma deliver_same_lines (ev : event) (w : World) :
  same_lines w -> same_lines (deliver ev w).
Proof.
  intros [Hf Hl].
  deliver_cases ev w; try (by split);
    (split; cbn;
     [intros f; rewrite !store_file_is_Some, Hf; tauto
     |intros f l; rewrite !cell_store; case_decide; [by split; eauto|apply Hl]]).
Qed.

(** X8: in every world of a profiled run [cpu_samples_python] and
    [cpu_samples_c] have entries for the same files and the same lines, so
    the list of files of the report, which is built without
    [cpu_samples_c], leaves out no file of any table. *)
Theorem cpu_tables_have_the_same_lines (w : World) :
  reachable w ->
  (forall f l, is_Some (cell (cpu_samples_python (cls w)) f l)
               <-> is_Some (cell (cpu_samples_c (cls w)) f l))
  /\ (forall f,
        is_Some (cpu_samples_python (cls w) !! f) \/ is_Some (cpu_samples_c (cls w) !! f)
        \/ is_Some (memory_free_samples (cls w) !! f)
        \/ is_Some (memory_malloc_samples (cls w) !! f) ->
        f ∈ all_instrumented_files (cls w)).
Proof.
  intros Hr.
  assert (same_lines w) as [Hf Hl].
  { induction Hr as [d prog t t0 t1 w _ _ Hl|ev w _ IH Hadm].
    - apply main_launch_Ok in Hl as (Hpy & Hc & _).
      split; [intros f|intros f l]; unfold cell; rewrite Hpy, Hc, !lookup_empty;
        cbn; rewrite ?lookup_empty; split; intros [? H]; discriminate H.
    - by apply deliver_same_lines. }
  split; [exact Hl|].
  intros f. unfold all_instrumented_files. rewrite !elem_of_union, !elem_of_dom, <- Hf.
  tauto.
Qed.

(** X8 after the early tick. *)
Lemma cpu_tables_have_the_same_lines_witness :
  reachable (deliver early_tick launched)
  /\ (forall f l,
        is_Some (cell (cpu_samples_python (cls (deliver early_tick launched))) f l)
        <-> is_Some (cell (cpu_samples_c (cls (deliver early_tick launched))) f l))
  /\ (forall f,
        is_Some (cpu_samples_python (cls (deliver early_tick launched)) !! f)
        \/ is_Some (cpu_samples_c (cls (deliver early_tick launched)) !! f)
        \/ is_Some (memory_free_samples (cls (deliver early_tick launched)) !! f)
        \/ is_Some (memory_malloc_samples (cls (deliver early_tick launched)) !! f) ->
        f ∈ all_instrumented_files (cls (deliver early_tick launched))).
Proof.
  assert (reachable (deliver early_tick launched)) as Hr.
  { apply reachable_deliver; [exact launched_reachable|].
    apply admissible_tick; lra. }
  split; [exact Hr|]. exact (cpu_tables_have_the_same_lines _ Hr).
Defined.

(** ** Counts *)

Lemma bumped_cell (t : gmap string (gmap Z Z)) (f f' : string) (l l' v : Z) :
  (forall f l v, cell t f l = Some v -> (1 <= v)%Z) ->
  cell (store t f l (entry 0%Z t f l + 1)%Z) f' l' = Some v -> (1 <= v)%Z.
Proof.
  intros Ht. rewrite cell_store. case_decide as Hfl; [|apply Ht].
  intros [= <-]. rewrite entry_cell.
  destruct (cell t f l) as [x|] eqn:Hx; cbn; [|lia].
  specialize (Ht _ _ _ Hx). lia.
Qed.

Lemma deliver_counts_inv (ev : event) (w : World) :
  counts_inv w -> counts_inv (deliver ev w).
Proof.
  intros (Hpy & Hm & Hf & Htm & Htf).
  deliver_cases ev w; try done;
    repeat split; cbn; try done; try lia; intros f l v; by apply bumped_cell.
Qed.

Lemma reachable_counts_inv (w : World) : reachable w -> counts_inv w.
Proof.
  induction 1 as [d prog t t0 t1 w _ _ Hl|ev w _ IH Hadm].
  - apply main_launch_Ok in Hl as (Hpy & _ & Hf & Hm & _ & Htf & Htm & _).
    unfold counts_inv, cell. rewrite Hpy, Hf, Hm, Htf, Htm.
    repeat split; try done; intros f l v; by rewrite !lookup_empty.
  - by apply deliver_counts_inv.
Qed.

(** X9: in every world of a profiled run, every entry of
    [cpu_samples_python], [memory_malloc_samples] and [memory_free_samples]
    is at least 1 (a line is never stored with a zero count), and the two
    memory counters are not negative. *)
Theorem stored_counts_are_positive (w : World) :
  reachable w ->
  (forall f l v, cell (cpu_samples_python (cls w)) f l = Some v -> (1 <= v)%Z)
  /\ (forall f l v, cell (memory_malloc_samples (cls w)) f l = Some v -> (1 <= v)%Z)
  /\ (forall f l v, cell (memory_free_samples (cls w)) f l = Some v -> (1 <= v)%Z)
  /\ (0 <= total_memory_malloc_samples (cls w))%Z
  /\ (0 <= total_memory_free_samples (cls w))%Z.
Proof. exact (reachable_counts_inv w). Qed.

(** X9 after one allocation signal. *)
Lemma stored_counts_are_positive_witness :
  reachable (deliver one_malloc launched)
  /\ (forall f l v,
        cell (cpu_samples_python (cls (deliver one_malloc launched))) f l = Some v ->
        (1 <= v)%Z)
  /\ (forall f l v,
        cell (memory_malloc_samples (cls (deliver one_malloc launched))) f l = Some v ->
        (1 <= v)%Z)
  /\ (forall f l v,
        cell (memory_free_samples (cls (deliver one_malloc launched))) f l = Some v ->
        (1 <= v)%Z)
  /\ (0 <= total_memory_malloc_samples (cls (deliver one_malloc launched)))%Z
  /\ (0 <= total_memory_free_samples (cls (deliver one_malloc launched)))%Z.
Proof.
  assert (reachable (deliver one_malloc launched)) as Hr.
  { apply reachable_deliver; [exact launched_reachable|]. vm_compute. reflexivity. }
  split; [exact Hr|]. exact (stored_counts_are_positive _ Hr).
Defined.

(** ** Sums over the tables *)

Lemma sum_Z_empty : sum_Z ∅ = 0%Z.
Proof. apply map_fold_empty. Qed.

Lemma sum_Q_empty : sum_Q ∅ = 0.
Proof. apply map_fold_empty. Qed.

Lemma sum_Z_insert (m : gmap Z Z) (l v : Z) :
  sum_Z (<[l := v]> m) = (sum_Z m - default 0 (m !! l) + v)%Z.
Proof.
  unfold sum_Z. destruct (m !! l) as [x|] eqn:Hx; cbn [from_option id].
  - rewrite <- (insert_delete_eq m).
    rewrite map_fold_insert_L; [|intros; lia|apply lookup_delete_eq].
    rewrite (map_fold_delete_L _ _ l x m); [lia|intros; lia|done].
  - rewrite map_fold_insert_L; [lia|intros; lia|done].
Qed.

Lemma sum_table_Z_insert (t : gmap string (gmap Z Z)) (f : string) (m : gmap Z Z) :
  sum_table_Z (<[f := m]> t)
  = (sum_table_Z t - sum_Z (default ∅ (t !! f)) + sum_Z m)%Z.
Proof.
  unfold sum_table_Z. destruct (t !! f) as [x|] eqn:Hx; cbn [from_option id].
  - rewrite <- (insert_delete_eq t).
    rewrite map_fold_insert_L; [|intros; lia|apply lookup_delete_eq].
    rewrite (map_fold_delete_L _ _ f x t); [lia|intros; lia|done].
  - rewrite map_fold_insert_L; [|intros; lia|done].
    rewrite sum_Z_empty. lia.
Qed.

Lemma sum_table_Z_store (t : gmap string (gmap Z Z)) (f : string) (l v : Z) :
  sum_table_Z (store t f l v) = (sum_table_Z t - entry 0%Z t f l + v)%Z.
Proof.
  unfold store. rewrite sum_table_Z_insert, sum_Z_insert. unfold entry. lia.
Qed.

Lemma sum_table_Z_empty : sum_table_Z ∅ = 0%Z.
Proof. apply map_fold_empty. Qed.

Lemma deliver_memory_sums (ev : event) (w : World) :
  total_memory_malloc_samples (cls w) = sum_table_Z (memory_malloc_samples (cls w))
  /\ total_memory_free_samples (cls w) = sum_table_Z (memory_free_samples (cls w)) ->
  total_memory_malloc_samples (cls (deliver ev w))
  = sum_table_Z (memory_malloc_samples (cls (deliver ev w)))
  /\ total_memory_free_samples (cls (deliver ev w))
     = sum_table_Z (memory_free_samples (cls (deliver ev w))).
Proof.
  intros [Hm Hf].
  deliver_cases ev w; try done; cbn; rewrite ?sum_table_Z_store; split; lia.
Qed.

(** X10: in every world of a profiled run [total_memory_malloc_samples] is
    the sum of all entries of [memory_malloc_samples], and
    [total_memory_free_samples] the sum of all entries of
    [memory_free_samples]. *)
Theorem memory_totals_are_sums (w : World) :
  reachable w ->
  total_memory_malloc_samples (cls w) = sum_table_Z (memory_malloc_samples (cls w))
  /\ total_memory_free_samples (cls w) = sum_table_Z (memory_free_samples (cls w)).
Proof.
  induction 1 as [d prog t t0 t1 w _ _ Hl|ev w _ IH Hadm].
  - apply main_launch_Ok in Hl as (_ & _ & Hf & Hm & _ & Htf & Htm & _).
    by rewrite Hf, Hm, Htf, Htm, sum_table_Z_empty.
  - by apply deliver_memory_sums.
Qed.

(** X10 after one allocation signal. *)
Lemma memory_totals_are_sums_witness :
  reachable (deliver one_malloc launched)
  /\ total_memory_malloc_samples (cls (deliver one_malloc launched))
     = sum_table_Z (memory_malloc_samples (cls (deliver one_malloc launched)))
  /\ total_memory_free_samples (cls (deliver one_malloc launched))
     = sum_table_Z (memory_free_samples (cls (deliver one_malloc launched))).
Proof.
  assert (reachable (deliver one_malloc launched)) as Hr.
  { apply reachable_deliver; [exact launched_reachable|]. vm_compute. reflexivity. }
  split; [exact Hr|]. exact (memory_totals_are_sums _ Hr).
Defined.

(** ** The counters grow *)

Lemma deliver_totals_grow (ev : event) (w : World) :
  admissible ev w -> interval_in_range w -> share_inv w ->
  total_cpu_samples (cls w) <= total_cpu_samples (cls (deliver ev w))
  /\ (total_memory_malloc_samples (cls w)
      <= total_memory_malloc_samples (cls (deliver ev w)))%Z
  /\ (total_memory_free_samples (cls w)
      <= total_memory_free_samples (cls (deliver ev w)))%Z.
Proof.
  intros Hadm [Hlo _] [Ht _]. rewrite half_mean in Hlo.
  deliver_cases ev w; cbn; repeat split; try lra; try lia.
  destruct Hadm as (_ & _ & Hnow & _).
  apply other_share; lra.
Qed.

Lemma reachable_total_nonneg (w : World) :
  reachable w -> 0 <= total_cpu_samples (cls w).
Proof.
  induction 1 as [d prog t t0 t1 w _ _ Hl|ev w Hr IH Hadm].
  - apply main_launch_Ok in Hl as (_ & _ & _ & _ & -> & _). lra.
  - destruct (deliver_totals_grow ev w Hadm) as (Hg & _);
      [by apply reachable_interval_in_range|by apply reachable_share_inv|lra].
Qed.

(** X12: no event of a profiled run makes [total_cpu_samples],
    [total_memory_malloc_samples] or [total_memory_free_samples] smaller,
    and [total_cpu_samples] is never negative. *)
Theorem totals_never_decrease (ev : event) (w : World) :
  reachable w -> admissible ev w ->
  0 <= total_cpu_samples (cls w)
  /\ total_cpu_samples (cls w) <= total_cpu_samples (cls (deliver ev w))
  /\ (total_memory_malloc_samples (cls w)
      <= total_memory_malloc_samples (cls (deliver ev w)))%Z
  /\ (total_memory_free_samples (cls w)
      <= total_memory_free_samples (cls (deliver ev w)))%Z.
Proof.
  intros Hr Hadm. split; [by apply reachable_total_nonneg|].
  apply deliver_totals_grow;
    [done|by apply reachable_interval_in_range|by apply reachable_share_inv].
Qed.

(** X12 for the early tick. *)
Lemma totals_never_decrease_witness :
  reachable launched /\ admissible early_tick launched
  /\ 0 <= total_cpu_samples (cls launched)
  /\ total_cpu_samples (cls launched)
     <= total_cpu_samples (cls (deliver early_tick launched))
  /\ (total_memory_malloc_samples (cls launched)
      <= total_memory_malloc_samples (cls (deliver early_tick launched)))%Z
  /\ (total_memory_free_samples (cls launched)
      <= total_memory_free_samples (cls (deliver early_tick launched)))%Z.
Proof.
  assert (admissible early_tick launched) as Hadm by (apply admissible_tick; lra).
  split; [exact launched_reachable|]. split; [exact Hadm|].
  exact (totals_never_decrease early_tick launched launched_reachable Hadm).
Defined.

(** ** What the report shows *)

Lemma entry_nonneg (t : gmap string (gmap Z Z)) (f : string) (l : Z) :
  (forall f l v, cell t f l = Some v -> (1 <= v)%Z) -> (0 <= entry 0%Z t f l)%Z.
Proof.
  intros Ht. rewrite entry_cell. destruct (cell t f l) as [v|] eqn:Hv; cbn; [|lia].
  specialize (Ht _ _ _ Hv). lia.
Qed.

(** X13: in every world of a profiled run the two CPU percentages of a
    line of the report are not negative, and when [total_cpu_samples] is
    zero they and the percentage of the file are zero (no division is
    attempted). *)
Theorem reported_percentages_not_negative (w : World) (fname : string) (line_no : Z) :
  reachable w ->
  0 <= n_cpu_percent_python (cls w) fname line_no
  /\ 0 <= n_cpu_percent_c (cls w) fname line_no
  /\ (total_cpu_samples (cls w) == 0 ->
      n_cpu_percent_python (cls w) fname line_no = 0
      /\ n_cpu_percent_c (cls w) fname line_no = 0
      /\ percent_cpu_time (cls w) fname = 0).
Proof.
  intros Hr.
  pose proof (reachable_total_nonneg w Hr) as Htot.
  destruct (reachable_counts_inv w Hr) as (Hpy & _).
  pose proof (entry_nonneg _ fname line_no Hpy) as Hp.
  unfold n_cpu_percent_python, n_cpu_percent_c, percent_cpu_time, n_cpu_samples_c,
    n_cpu_samples_python.
  destruct (Qeq_bool (total_cpu_samples (cls w)) 0) eqn:Hz; cbn [negb].
  - repeat split; lra.
  - apply Qeq_bool_neq in Hz.
    assert (0 < total_cpu_samples (cls w)) as Hpos by lra.
    split; [|split; [|tauto]].
    + apply Qle_shift_div_l; [done|].
      assert (0 <= inject_Z (entry 0%Z (cpu_samples_python (cls w)) fname line_no)) as H0.
      { rewrite <- (Zle_Qle 0). exact Hp. }
      lra.
    + apply Qle_shift_div_l; [done|].
      destruct (Qle_bool 0 (entry 0 (cpu_samples_c (cls w)) fname line_no)) eqn:Hc;
        cbn [negb]; [|lra].
      apply Qle_bool_iff in Hc. lra.
Qed.

(** X13 on the line of the early tick, whose native entry is negative. *)
Lemma reported_percentages_not_negative_witness :
  let w := deliver early_tick launched in
  reachable w
  /\ 0 <= n_cpu_percent_python (cls w) "main.py" 3
  /\ 0 <= n_cpu_percent_c (cls w) "main.py" 3
  /\ (total_cpu_samples (cls w) == 0 ->
      n_cpu_percent_python (cls w) "main.py" 3 = 0
      /\ n_cpu_percent_c (cls w) "main.py" 3 = 0
      /\ percent_cpu_time (cls w) "main.py" = 0).
Proof.
  cbv zeta.
  assert (reachable (deliver early_tick launched)) as Hr.
  { apply reachable_deliver; [exact launched_reachable|].
    apply admissible_tick; lra. }
  split; [exact Hr|].
  exact (reported_percentages_not_negative _ "main.py" 3 Hr).
Defined.

Lemma megabytes (n : Z) :
  inject_Z (n * malloc_sampling_rate) / inject_Z (1024 * 1024) == 256 * inject_Z n.
Proof.
  unfold malloc_sampling_rate. rewrite inject_Z_mult.
  change (inject_Z (256 * 1024 * 1024)) with (256 * inject_Z (1024 * 1024)).
  field. discriminate.
Qed.

(** X14: in every world of a profiled run a row of the report has memory
    columns exactly when [did_sample_memory] holds, and then the growth is
    256 MB times the difference of the allocation and free counts of the
    line, the usage is 256 MB times their sum, the usage is not negative
    and the growth lies between minus the usage and the usage. *)
Theorem memory_columns_of_a_row (w : World) (fname : string) (line_no : Z) :
  reachable w ->
  match row_memory (report_row (cls w) fname line_no) with
  | Some (growth, usage) =>
      did_sample_memory (cls w) = true
      /\ growth == 256 * (inject_Z (entry 0%Z (memory_malloc_samples (cls w)) fname line_no)
                          - inject_Z (entry 0%Z (memory_free_samples (cls w)) fname line_no))
      /\ usage == 256 * (inject_Z (entry 0%Z (memory_malloc_samples (cls w)) fname line_no)
                         + inject_Z (entry 0%Z (memory_free_samples (cls w)) fname line_no))
      /\ 0 <= usage /\ - usage <= growth /\ growth <= usage
  | None => did_sample_memory (cls w) = false
  end.
Proof.
  intros Hr. destruct (reachable_counts_inv w Hr) as (_ & Hm & Hf & _).
  pose proof (entry_nonneg _ fname line_no Hm) as Hm0.
  pose proof (entry_nonneg _ fname line_no Hf) as Hf0.
  unfold report_row. cbn [row_memory].
  destruct (did_sample_memory (cls w)); [|done].
  unfold n_malloc_mb, n_free_mb. rewrite !megabytes.
  rewrite (Zle_Qle 0) in Hm0, Hf0. change (inject_Z 0) with 0 in Hm0, Hf0.
  repeat split; try reflexivity; lra.
Qed.

(** X14 on line 3 after two allocation signals. *)
Lemma memory_columns_of_a_row_witness :
  reachable (run [one_malloc; one_malloc] launched)
  /\ match row_memory (report_row (cls (run [one_malloc; one_malloc] launched)) "main.py" 3) with
     | Some (growth, usage) =>
         did_sample_memory (cls (run [one_malloc; one_malloc] launched)) = true
         /\ growth
            == 256 * (inject_Z (entry 0%Z (memory_malloc_samples
                                             (cls (run [one_malloc; one_malloc] launched))) "main.py" 3)
                      - inject_Z (entry 0%Z (memory_free_samples
                                               (cls (run [one_malloc; one_malloc] launched))) "main.py" 3))
         /\ usage
            == 256 * (inject_Z (entry 0%Z (memory_malloc_samples
                                             (cls (run [one_malloc; one_malloc] launched))) "main.py" 3)
                      + inject_Z (entry 0%Z (memory_free_samples
                                               (cls (run [one_malloc; one_malloc] launched))) "main.py" 3))
         /\ 0 <= usage /\ - usage <= growth /\ growth <= usage
     | None => did_sample_memory (cls (run [one_malloc; one_malloc] launched)) = false
     end.
Proof.
  assert (reachable (run [one_malloc; one_malloc] launched)) as Hr.
  { apply reachable_run; [exact launched_reachable|]. vm_compute. reflexivity. }
  split; [exact Hr|]. exact (memory_columns_of_a_row _ "main.py" 3 Hr).
Defined.

(** ** When [main] reports *)

Lemma store_nonempty {V : Type} (t : gmap string (gmap Z V)) (f : string) (l : Z) (v : V) :
  store t f l v <> ∅.
Proof. apply insert_non_empty. Qed.

Lemma deliver_nonempty_inv (ev : event) (w : World) :
  nonempty_inv w -> nonempty_inv (deliver ev w).
Proof.
  intros (Hc & Hm & Hf).
  deliver_cases ev w; try done;
    repeat split; cbn; try done; intros H; by apply store_nonempty in H.
Qed.

Lemma reachable_nonempty_inv (w : World) : reachable w -> nonempty_inv w.
Proof.
  induction 1 as [d prog t t0 t1 w _ _ Hl|ev w _ IH Hadm].
  - apply main_launch_Ok in Hl as (_ & _ & _ & _ & Ht & Htf & Htm & _).
    by repeat split.
  - by apply deliver_nonempty_inv.
Qed.

(** X15: whenever [main], at the end of a profiled run, decides to call
    [output_profiles] (some counter is positive), the list of files of the
    report is not empty. *)
Theorem main_reports_some_file (w w' : World) (original_path : string) (now : Q) :
  reachable w ->
  main_finish original_path now w = Ok (w', true) ->
  exists f, f ∈ all_instrumented_files (cls w').
Proof.
  intros Hr. unfold main_finish. rewrite stop_Ok. cbn [bind].
  intros [= <- Hrep].
  destruct (reachable_nonempty_inv w Hr) as (Hc & Hm & Hf).
  assert (forall {V} (t : gmap string V), t <> ∅ -> exists f, f ∈ dom t) as Hdom.
  { intros V t Ht. apply map_choose in Ht as (f & x & Hx).
    exists f. apply elem_of_dom. by eexists. }
  unfold main_reports in Hrep. cbn in Hrep.
  unfold all_instrumented_files. cbn.
  apply orb_true_iff in Hrep as [Hrep|Hrep];
    [apply orb_true_iff in Hrep as [Hrep|Hrep]|].
  - destruct (Hdom _ (cpu_samples_python (cls w))) as [f Hin].
    { intros He. rewrite (Hc He) in Hrep. discriminate Hrep. }
    exists f. rewrite !elem_of_union. tauto.
  - destruct (Hdom _ (memory_malloc_samples (cls w))) as [f Hin].
    { intros He. rewrite (Hm He) in Hrep. discriminate Hrep. }
    exists f. rewrite !elem_of_union. tauto.
  - destruct (Hdom _ (memory_free_samples (cls w))) as [f Hin].
    { intros He. rewrite (Hf He) in Hrep. discriminate Hrep. }
    exists f. rewrite !elem_of_union. tauto.
Qed.

(** X15 on the run with the late tick, finished at 30 ms. *)
Lemma main_reports_some_file_witness :
  reachable (deliver late_tick launched)
  /\ exists w',
       main_finish "/home/u" (3 # 100) (deliver late_tick launched) = Ok (w', true)
       /\ exists f, f ∈ all_instrumented_files (cls w').
Proof.
  assert (reachable (deliver late_tick launched)) as Hr.
  { apply reachable_deliver; [exact launched_reachable|].
    apply admissible_tick; lra. }
  split; [exact Hr|].
  assert (main_finish "/home/u" (3 # 100) (deliver late_tick launched)
          = Ok (set_proc
                  (os_chdir "/home/u"
                     (set_clock (3 # 100) (disabled (proc (deliver late_tick launched)))))
                  (mkWorld
                     (set_elapsed_time
                        ((3 # 100) - elapsed_time (cls (deliver late_tick launched)))
                        (cls (deliver late_tick launched)))
                     (set_clock (3 # 100) (disabled (proc (deliver late_tick launched))))),
                true)) as Hfin.
  { vm_compute. reflexivity. }
  eexists. split; [exact Hfin|].
  exact (main_reports_some_file _ _ "/home/u" (3 # 100) Hr Hfin).
Defined.

(** ** The handlers on an accepted location *)

(** X16: when the filter accepts the location of a timer interrupt and the
    recorded interval is not zero, the handler returns; the interpreted
    count of the line grows by 1, its native weight by
    [(elapsed - interval) / interval] and the total by
    [elapsed / interval], where [elapsed] is the first clock reading minus
    [last_signal_time] and [interval] the recorded [last_signal_interval];
    no other line, no memory table and no memory counter changes;
    [last_signal_time] becomes the second clock reading and the timer is
    armed again with a fresh interval in range. *)
Theorem cpu_signal_handler_accepted (now now' r : Q) (fr : frame) (w w1 : World)
    (fname : string) :
  cpu_frame_filename fr = Ok fname ->
  should_trace fname w = Ok (true, w1) ->
  ~ last_signal_interval (cls w) == 0 ->
  0 <= r -> r < 1 ->
  exists w',
    cpu_signal_handler now now' r fr w = Returned w'
    /\ entry 0%Z (cpu_samples_python (cls w')) fname (f_lineno fr)
       = (entry 0%Z (cpu_samples_python (cls w)) fname (f_lineno fr) + 1)%Z
    /\ entry 0 (cpu_samples_c (cls w')) fname (f_lineno fr)
       = entry 0 (cpu_samples_c (cls w)) fname (f_lineno fr)
         + (now - last_signal_time (cls w) - last_signal_interval (cls w))
           / last_signal_interval (cls w)
    /\ total_cpu_samples (cls w')
       = total_cpu_samples (cls w)
         + (now - last_signal_time (cls w)) / last_signal_interval (cls w)
    /\ (forall f l, ~ (fname = f /\ f_lineno fr = l) ->
          entry 0%Z (cpu_samples_python (cls w')) f l
          = entry 0%Z (cpu_samples_python (cls w)) f l
          /\ entry 0 (cpu_samples_c (cls w')) f l = entry 0 (cpu_samples_c (cls w)) f l)
    /\ memory_free_samples (cls w') = memory_free_samples (cls w)
    /\ memory_malloc_samples (cls w') = memory_malloc_samples (cls w)
    /\ total_memory_free_samples (cls w') = total_memory_free_samples (cls w)
    /\ total_memory_malloc_samples (cls w') = total_memory_malloc_samples (cls w)
    /\ last_signal_time (cls w') = now'
    /\ mean_signal_interval / 2 <= last_signal_interval (cls w')
    /\ last_signal_interval (cls w') <= mean_signal_interval * 3 / 2
    /\ itimers (proc w') !! cpu_timer_signal
       = Some (last_signal_interval (cls w'), last_signal_interval (cls w')).
Proof.
  intros Hfr Hst Hi Hr0 Hr1. unfold cpu_signal_handler.
  rewrite Hfr; cbn [attempt]. rewrite Hst; cbn [attempt negb].
  apply should_trace_Ok in Hst as (c & _ & ->). cbn [cls set_proc].
  destruct (Qeq_bool (last_signal_interval (cls w)) 0) eqn:Hz.
  { apply Qeq_bool_eq in Hz. contradiction. }
  eexists; split; [reflexivity|].
  cbn [cls proc set_sampling set_cpu cpu_samples_python cpu_samples_c
       memory_free_samples memory_malloc_samples total_cpu_samples
       total_memory_free_samples total_memory_malloc_samples
       last_signal_time last_signal_interval].
  destruct (random_uniform_bounds r Hr0 Hr1) as (Hlo & Hhi & Hpos).
  split; [by rewrite entry_store, decide_True|].
  split; [by rewrite entry_store, decide_True|].
  split; [reflexivity|].
  split.
  { intros f l Hne. by rewrite !entry_store, !decide_False. }
  repeat (split; [reflexivity|]).
  split; [done|]. split; [done|].
  cbn [set_clock itimers]. by apply setitimer_armed.
Qed.

(** X16 on the late tick. *)
Lemma cpu_signal_handler_accepted_witness :
  cpu_frame_filename (Frame "main.py" 3 None) = Ok "main.py"
  /\ should_trace "main.py" launched
     = Ok (true, set_proc (set_memo [("main.py", true)] (proc launched)) launched)
  /\ ~ last_signal_interval (cls launched) == 0
  /\ exists w',
       cpu_signal_handler (2 # 100) (2 # 100) (1 # 2) (Frame "main.py" 3 None) launched
       = Returned w'
       /\ entry 0%Z (cpu_samples_python (cls w')) "main.py" 3
          = (entry 0%Z (cpu_samples_python (cls launched)) "main.py" 3 + 1)%Z
       /\ entry 0 (cpu_samples_c (cls w')) "main.py" 3
          = entry 0 (cpu_samples_c (cls launched)) "main.py" 3
            + ((2 # 100) - last_signal_time (cls launched)
               - last_signal_interval (cls launched))
              / last_signal_interval (cls launched)
       /\ total_cpu_samples (cls w')
          = total_cpu_samples (cls launched)
            + ((2 # 100) - last_signal_time (cls launched))
              / last_signal_interval (cls launched).
Proof.
  assert (cpu_frame_filename (Frame "main.py" 3 None) = Ok "main.py") as Hf
    by reflexivity.
  assert (should_trace "main.py" launched
          = Ok (true, set_proc (set_memo [("main.py", true)] (proc launched)) launched))
    as Hs by (vm_compute; reflexivity).
  assert (~ last_signal_interval (cls launched) == 0) as Hi
    by (intros H; vm_compute in H; discriminate H).
  split; [exact Hf|]. split; [exact Hs|]. split; [exact Hi|].
  destruct (cpu_signal_handler_accepted (2 # 100) (2 # 100) (1 # 2)
              (Frame "main.py" 3 None) launched _ "main.py" Hf Hs Hi)
    as (w' & Hw & Hpy & Hc & Htot & _); [lra|lra|].
  exists w'. by repeat split.
Defined.

Lemma bump_entry (t : gmap string (gmap Z Z)) (f0 f : string) (l0 l : Z) :
  entry 0%Z (store t f0 l0 (entry 0%Z t f0 l0 + 1)%Z) f l
  = (entry 0%Z t f l + if decide (f0 = f /\ l0 = l) then 1 else 0)%Z.
Proof.
  rewrite entry_store. case_decide as H; [destruct H as [<- <-]|]; lia.
Qed.

(** X17: a memory handler whose frame the filter answers returns, keeps
    what [should_trace] did to the process, and changes nothing of the CPU
    tables, the sampling state or the other memory table; when the answer
    is yes, the entry of the line and the counter of its kind grow by 1 and
    no other entry changes; when the answer is no, the profiler's
    attributes are all unchanged. *)
Theorem memory_handlers_count_one (fr : frame) (w w1 : World) (b : bool) :
  should_trace (co_filename fr) w = Ok (b, w1) ->
  (exists w',
     malloc_signal_handler fr w = Returned w'
     /\ proc w' = proc w1
     /\ set_malloc (memory_malloc_samples (cls w)) (total_memory_malloc_samples (cls w))
          (cls w')
        = cls w
     /\ total_memory_malloc_samples (cls w')
        = (total_memory_malloc_samples (cls w) + if b then 1 else 0)%Z
     /\ forall f l,
          entry 0%Z (memory_malloc_samples (cls w')) f l
          = (entry 0%Z (memory_malloc_samples (cls w)) f l
             + if decide (b = true /\ co_filename fr = f /\ f_lineno fr = l)
               then 1 else 0)%Z)
  /\ (exists w',
        free_signal_handler fr w = Returned w'
        /\ proc w' = proc w1
        /\ set_free (memory_free_samples (cls w)) (total_memory_free_samples (cls w))
             (cls w')
           = cls w
        /\ total_memory_free_samples (cls w')
           = (total_memory_free_samples (cls w) + if b then 1 else 0)%Z
        /\ forall f l,
             entry 0%Z (memory_free_samples (cls w')) f l
             = (entry 0%Z (memory_free_samples (cls w)) f l
                + if decide (b = true /\ co_filename fr = f /\ f_lineno fr = l)
                  then 1 else 0)%Z).
Proof.
  intros Hst. unfold malloc_signal_handler, free_signal_handler.
  rewrite Hst; cbn [attempt].
  apply should_trace_Ok in Hst as (c & _ & ->).
  destruct w as [S P]. destruct S. cbn.
  destruct b; cbn [negb]; split; eexists; (split; [reflexivity|]); cbn;
    (split; [reflexivity|]); (split; [reflexivity|]); (split; [lia|]);
    intros f l; rewrite ?bump_entry;
    repeat case_decide; try lia; try tauto;
    match goal with H : false = true /\ _ |- _ => destruct H as [H _]; discriminate H end.
Qed.

(** X17 on an allocation signal at line 3 of the program. *)
Lemma memory_handlers_count_one_witness :
  should_trace "main.py" launched
  = Ok (true, set_proc (set_memo [("main.py", true)] (proc launched)) launched)
  /\ exists w',
       malloc_signal_handler (Frame "main.py" 3 None) launched = Returned w'
       /\ total_memory_malloc_samples (cls w')
          = (total_memory_malloc_samples (cls launched) + 1)%Z.
Proof.
  assert (should_trace (co_filename (Frame "main.py" 3 None)) launched
          = Ok (true, set_proc (set_memo [("main.py", true)] (proc launched)) launched))
    as Hs by (vm_compute; reflexivity).
  split; [exact Hs|].
  destruct (memory_handlers_count_one (Frame "main.py" 3 None) launched _ true Hs)
    as [(w' & Hw & _ & _ & Ht & _) _].
  exists w'. by split.
Defined.

(** ** While the program runs *)

Lemma sigs_setitimer (which : Z) (a b : Q) (P : Process) :
  sigs (setitimer which a b P) = sigs P.
Proof. apply setitimer_keeps. Qed.

Lemma main_launch_armed (prog : string) (t0 t1 : Q) (P : Process) (w : World) :
  main_launch prog t0 t1 P = Ok w -> armed w.
Proof.
  unfold main_launch. rewrite init_Ok. cbn [bind]. intros [= <-].
  unfold armed, start. cbn [proc cls set_clock sigs itimers].
  rewrite !sigs_setitimer. cbn [sigs set_sigs].
  repeat split.
  - do 2 (rewrite lookup_insert_ne by done). by rewrite lookup_insert_eq.
  - rewrite lookup_insert_ne by done. by rewrite lookup_insert_eq.
  - by rewrite lookup_insert_eq.
  - cbn. apply setitimer_armed. reflexivity.
Qed.

Lemma deliver_armed (ev : event) (w : World) :
  is_shutdown ev = false -> admissible ev w -> armed w -> armed (deliver ev w).
Proof.
  intros Hev Hadm (Hc & Hm & Hf & Ht). unfold armed.
  deliver_cases ev w; try done;
    cbn [proc cls set_clock sigs itimers set_cls]; rewrite ?sigs_setitimer;
    cbn [sigs set_memo itimers last_signal_interval set_sampling set_cpu set_malloc
         set_free];
    try (by repeat split);
    destruct Hadm as (_ & _ & _ & _ & Hr0 & Hr1);
    destruct (random_uniform_bounds r Hr0 Hr1) as (_ & _ & Hpos);
    repeat split; try done; by apply setitimer_armed.
Qed.

(** X18: from the launch until [stop] or the exit handler runs, after every
    event of a run the three handlers are bound to their signals and the
    virtual timer is armed, with exactly the interval that
    [last_signal_interval] records. *)
Theorem armed_while_running (prog : string) (t0 t1 : Q) (P : Process) (w0 : World)
    (evs : list event) :
  main_launch prog t0 t1 P = Ok w0 ->
  forallb (fun ev => negb (is_shutdown ev)) evs = true ->
  admissible_trace evs w0 ->
  sigs (proc (run evs w0)) !! cpu_signal = Some (Handler cpu_handler)
  /\ sigs (proc (run evs w0)) !! malloc_signal = Some (Handler malloc_handler)
  /\ sigs (proc (run evs w0)) !! free_signal = Some (Handler free_handler)
  /\ itimers (proc (run evs w0)) !! cpu_timer_signal
     = Some (last_signal_interval (cls (run evs w0)),
             last_signal_interval (cls (run evs w0))).
Proof.
  intros Hl%main_launch_armed. revert w0 Hl.
  induction evs as [|ev evs IH]; intros w Hw Hevs Hadm; [exact Hw|].
  cbn in Hevs. apply andb_true_iff in Hevs as [Hev Hevs].
  apply negb_true_iff in Hev. destruct Hadm as [Hadm Hadms].
  cbn [run fold_left]. apply IH; [|done|done]. by apply deliver_armed.
Qed.

(** X18 on a run with a tick, an allocation and a change of directory. *)
Lemma armed_while_running_witness :
  main_launch "main.py" 0 0 (fresh_process "/home/u/proj" 0) = Ok launched
  /\ admissible_trace [early_tick; one_malloc; Chdir "/tmp"] launched
  /\ sigs (proc (run [early_tick; one_malloc; Chdir "/tmp"] launched)) !! cpu_signal
     = Some (Handler cpu_handler)
  /\ sigs (proc (run [early_tick; one_malloc; Chdir "/tmp"] launched)) !! malloc_signal
     = Some (Handler malloc_handler)
  /\ sigs (proc (run [early_tick; one_malloc; Chdir "/tmp"] launched)) !! free_signal
     = Some (Handler free_handler)
  /\ itimers (proc (run [early_tick; one_malloc; Chdir "/tmp"] launched))
       !! cpu_timer_signal
     = Some (last_signal_interval (cls (run [early_tick; one_malloc; Chdir "/tmp"] launched)),
             last_signal_interval (cls (run [early_tick; one_malloc; Chdir "/tmp"] launched))).
Proof.
  assert (main_launch "main.py" 0 0 (fresh_process "/home/u/proj" 0) = Ok launched)
    as Hl by (vm_compute; reflexivity).
  assert (admissible_trace [early_tick; one_malloc; Chdir "/tmp"] launched) as Hadm.
  { cbn [admissible_trace]. split; [apply admissible_tick; lra|].
    split; [vm_compute; reflexivity|]. by split. }
  split; [exact Hl|]. split; [exact Hadm|].
  exact (armed_while_running "main.py" 0 0 _ launched
           [early_tick; one_malloc; Chdir "/tmp"] Hl eq_refl Hadm).
Defined.

(** ** Counts and interrupts *)

Lemma deliver_counts (ev : event) (w : World) :
  sum_table_Z (cpu_samples_python (cls (deliver ev w)))
  = (sum_table_Z (cpu_samples_python (cls w))
     + if decide (accepting_handler ev w = Some cpu_handler) then 1 else 0)%Z
  /\ total_memory_malloc_samples (cls (deliver ev w))
     = (total_memory_malloc_samples (cls w)
        + if decide (accepting_handler ev w = Some malloc_handler) then 1 else 0)%Z
  /\ total_memory_free_samples (cls (deliver ev w))
     = (total_memory_free_samples (cls w)
        + if decide (accepting_handler ev w = Some free_handler) then 1 else 0)%Z.
Proof.
  destruct ev as [now now' r fr|fr|fr|d|now|];
    cbn [deliver accepting_handler].
  - unfold cpu_signal_handler, filter_answer.
    destruct (cpu_frame_filename fr) as [fname|e]; cbn [attempt world_after];
      [|repeat split; repeat case_decide; first [congruence|lia]].
    destruct (should_trace fname w) as [[traced w1]|e] eqn:Hst;
      cbn [attempt bind world_after];
      [|repeat split; repeat case_decide; first [congruence|lia]].
    apply should_trace_Ok in Hst as (c & _ & ->).
    destruct traced; cbn [negb];
      [destruct (Qeq_bool (last_signal_interval (cls (set_proc (set_memo c (proc w)) w))) 0)|];
      cbn [world_after cls set_cls set_proc set_sampling set_cpu cpu_samples_python
           total_memory_malloc_samples total_memory_free_samples];
      rewrite ?sum_table_Z_store;
      repeat split; repeat case_decide; first [congruence|lia].
  - unfold malloc_signal_handler, filter_answer.
    destruct (should_trace (co_filename fr) w) as [[traced w1]|e] eqn:Hst;
      cbn [attempt bind world_after];
      [|repeat split; repeat case_decide; first [congruence|lia]].
    apply should_trace_Ok in Hst as (c & _ & ->).
    destruct traced; cbn [negb world_after cls set_cls set_proc set_malloc
      cpu_samples_python total_memory_malloc_samples total_memory_free_samples];
      repeat split; repeat case_decide; first [congruence|lia].
  - unfold free_signal_handler, filter_answer.
    destruct (should_trace (co_filename fr) w) as [[traced w1]|e] eqn:Hst;
      cbn [attempt bind world_after];
      [|repeat split; repeat case_decide; first [congruence|lia]].
    apply should_trace_Ok in Hst as (c & _ & ->).
    destruct traced; cbn [negb world_after cls set_cls set_proc set_free
      cpu_samples_python total_memory_malloc_samples total_memory_free_samples];
      repeat split; repeat case_decide; first [congruence|lia].
  - cbn. repeat split; repeat case_decide; first [congruence|lia].
  - rewrite stop_Ok. cbn. repeat split; repeat case_decide; first [congruence|lia].
  - rewrite exit_handler_Ok. cbn. repeat split; repeat case_decide; first [congruence|lia].
Qed.

Lemma run_counts (evs : list event) (w : World) :
  sum_table_Z (cpu_samples_python (cls (run evs w)))
  = (sum_table_Z (cpu_samples_python (cls w)) + count_accepted cpu_handler evs w)%Z
  /\ total_memory_malloc_samples (cls (run evs w))
     = (total_memory_malloc_samples (cls w) + count_accepted malloc_handler evs w)%Z
  /\ total_memory_free_samples (cls (run evs w))
     = (total_memory_free_samples (cls w) + count_accepted free_handler evs w)%Z.
Proof.
  revert w. induction evs as [|ev evs IH]; intros w.
  - cbn. repeat split; lia.
  - cbn [run fold_left count_accepted]. fold (run evs (deliver ev w)).
    destruct (IH (deliver ev w)) as (-> & -> & ->).
    destruct (deliver_counts ev w) as (-> & -> & ->).
    repeat split; lia.
Qed.

(** X19: after any run from the launch, the sum of all entries of
    [cpu_samples_python] is the number of timer interrupts whose location
    the filter accepted, whatever their weights, and the two memory
    counters are the numbers of accepted allocation and free signals. *)
Theorem counts_are_accepted_interrupts (prog : string) (t0 t1 : Q) (P : Process)
    (w0 : World) (evs : list event) :
  main_launch prog t0 t1 P = Ok w0 ->
  sum_table_Z (cpu_samples_python (cls (run evs w0))) = count_accepted cpu_handler evs w0
  /\ total_memory_malloc_samples (cls (run evs w0)) = count_accepted malloc_handler evs w0
  /\ total_memory_free_samples (cls (run evs w0)) = count_accepted free_handler evs w0.
Proof.
  intros Hl.
  apply main_launch_Ok in Hl as (Hpy & _ & _ & _ & _ & Htf & Htm & _).
  destruct (run_counts evs w0) as (-> & -> & ->).
  rewrite Hpy, Htf, Htm, sum_table_Z_empty. repeat split; lia.
Qed.

(** X19 on the wandering run: one accepted allocation signal out of 129. *)
Lemma counts_are_accepted_interrupts_witness :
  main_launch "main.py" 0 0 (fresh_process "/home/u/proj" 0) = Ok launched
  /\ count_accepted malloc_handler wandering_run launched = 1%Z
  /\ sum_table_Z (cpu_samples_python (cls (run wandering_run launched)))
     = count_accepted cpu_handler wandering_run launched
  /\ total_memory_malloc_samples (cls (run wandering_run launched))
     = count_accepted malloc_handler wandering_run launched
  /\ total_memory_free_samples (cls (run wandering_run launched))
     = count_accepted free_handler wandering_run launched.
Proof.
  assert (main_launch "main.py" 0 0 (fresh_process "/home/u/proj" 0) = Ok launched)
    as Hl by (vm_compute; reflexivity).
  split; [exact Hl|]. split; [vm_compute; reflexivity|].
  exact (counts_are_accepted_interrupts "main.py" 0 0 _ launched wandering_run Hl).
Defined.

(** ** Stopping twice *)

Lemma disabled_fixed_timer_off (P : Process) :
  disabled P = P -> itimers P !! cpu_timer_signal = None.
Proof.
  intros H. rewrite <- H. unfold disabled; cbn [itimers]. apply lookup_delete_eq.
Qed.

Lemma deliver_keeps_disabled (ev : event) (w : World) :
  is_timer ev = false -> disabled (proc w) = proc w ->
  disabled (proc (deliver ev w)) = proc (deliver ev w).
Proof.
  intros Hev Hw. destruct ev as [now now' r fr|fr|fr|d|now|]; [done| | | | |];
    cbn [deliver].
  - destruct (malloc_signal_handler_world fr w) as [[e ->]|(traced & c & _ & ->)];
      cbn [world_after proc]; [done|].
    change (disabled (set_memo c (proc w))) with (set_memo c (disabled (proc w))).
    by rewrite Hw.
  - destruct (free_signal_handler_world fr w) as [[e ->]|(traced & c & _ & ->)];
      cbn [world_after proc]; [done|].
    change (disabled (set_memo c (proc w))) with (set_memo c (disabled (proc w))).
    by rewrite Hw.
  - cbn [proc set_proc]. unfold os_chdir.
    change (disabled (set_cwd ?x (proc w))) with (set_cwd x (disabled (proc w))).
    by rewrite Hw.
  - rewrite stop_Ok. cbn [proc]. by rewrite disabled_set_clock, disabled_idem.
  - rewrite exit_handler_Ok. cbn [proc set_proc]. by rewrite disabled_idem.
Qed.

Lemma run_keeps_disabled (evs : list event) (w : World) :
  admissible_trace evs w \/ forallb (fun ev => negb (is_timer ev)) evs = true ->
  disabled (proc w) = proc w ->
  disabled (proc (run evs w)) = proc (run evs w).
Proof.
  revert w. induction evs as [|ev evs IH]; intros w Hevs Hw; [done|].
  cbn [run fold_left]. fold (run evs (deliver ev w)).
  assert (is_timer ev = false) as Hev.
  { destruct Hevs as [[Hadm _]|Hnt].
    - destruct ev as [now now' r fr| | | | |]; try done.
      destruct Hadm as (_ & [x Hx] & _).
      rewrite (disabled_fixed_timer_off _ Hw) in Hx. discriminate Hx.
    - cbn in Hnt. apply andb_true_iff in Hnt as [Hnt _]. by apply negb_true_iff. }
  apply IH; [|by apply deliver_keeps_disabled].
  destruct Hevs as [[_ Hadm]|Hnt]; [by left|right].
  cbn in Hnt. by apply andb_true_iff in Hnt as [_ Hnt].
Qed.

(** C6, amended: [stop] always returns; in every state reached after it
    without a further timer interrupt being handled (changes of directory,
    memory signals, further calls of [stop] or of the exit handler: every
    run the model admits once the timer is cleared), [exit_handler] changes
    nothing at all (disabling the signals and the timer again is the same
    as once), and a further [stop] changes nothing but [elapsed_time], which
    becomes the new reading minus the old value, and the clock. *)
Theorem stop_then_exit_or_stop (w : World) (t1 : Q) :
  exists w1,
    stop t1 w = Ok w1
    /\ forall evs,
         admissible_trace evs w1
         \/ forallb (fun ev => negb (is_timer ev)) evs = true ->
         exit_handler (run evs w1) = Ok (run evs w1)
         /\ forall t2,
              stop t2 (run evs w1)
              = Ok (mkWorld
                      (set_elapsed_time (t2 - elapsed_time (cls (run evs w1)))
                         (cls (run evs w1)))
                      (set_clock t2 (proc (run evs w1)))).
Proof.
  rewrite stop_Ok. eexists; split; [reflexivity|].
  intros evs Hevs.
  set (w1 := mkWorld _ _) in *.
  assert (disabled (proc w1) = proc w1) as Hw1.
  { unfold w1. cbn [proc]. by rewrite disabled_set_clock, disabled_idem. }
  pose proof (run_keeps_disabled evs w1 Hevs Hw1) as Hd.
  split.
  - rewrite exit_handler_Ok, Hd. by destruct (run evs w1).
  - intros t2. by rewrite stop_Ok, Hd.
Qed.

(** The amended C6 on the end of [main]: [stop], back to the original
    directory, then the exit handler or a second [stop]. *)
Lemma stop_then_exit_or_stop_witness :
  exists w1,
    stop 5 (deliver late_tick launched) = Ok w1
    /\ forallb (fun ev => negb (is_timer ev)) [Chdir "/home/u"] = true
    /\ exit_handler (run [Chdir "/home/u"] w1) = Ok (run [Chdir "/home/u"] w1)
    /\ forall t2,
         stop t2 (run [Chdir "/home/u"] w1)
         = Ok (mkWorld
                 (set_elapsed_time (t2 - elapsed_time (cls (run [Chdir "/home/u"] w1)))
                    (cls (run [Chdir "/home/u"] w1)))
                 (set_clock t2 (proc (run [Chdir "/home/u"] w1)))).
Proof.
  destruct (stop_then_exit_or_stop (deliver late_tick launched) 5) as (w1 & Hs & H).
  exists w1. split; [exact Hs|]. split; [reflexivity|].
  exact (H [Chdir "/home/u"] (or_intror eq_refl)).
Defined.

(** ** Per-line CPU percentages on doubles *)

(** With no rounding the definitions on doubles are the exact ones. *)
Lemma cpu_signal_handler_fl_exact (now now' r : Q) (fr : frame) (w : World) :
  cpu_signal_handler_fl (fun x => x) now now' r fr w = cpu_signal_handler now now' r fr w.
Proof. reflexivity. Qed.

Lemma main_launch_fl_exact (prog : string) (t0 t1 : Q) (P : Process) :
  main_launch_fl (fun x => x) prog t0 t1 P = main_launch prog t0 t1 P.
Proof. reflexivity. Qed.

Lemma deliver_fl_exact (ev : event) (w : World) :
  deliver_fl (fun x => x) ev w = deliver ev w.
Proof. by destruct ev. Qed.

Lemma run_fl_exact (evs : list event) (w : World) :
  run_fl (fun x => x) evs w = run evs w.
Proof.
  revert w. induction evs as [|ev evs IH]; intros w; [done|].
  cbn [run_fl run fold_left]. rewrite deliver_fl_exact. apply IH.
Qed.

Lemma n_cpu_percent_fl_exact (S : Scalene) (fname : string) (line_no : Z) :
  n_cpu_percent_python_fl (fun x => x) S fname line_no
  == n_cpu_percent_python S fname line_no
  /\ n_cpu_percent_c_fl (fun x => x) S fname line_no = n_cpu_percent_c S fname line_no.
Proof.
  split; [|reflexivity].
  unfold n_cpu_percent_python_fl, n_cpu_percent_python.
  destruct (Qeq_bool (total_cpu_samples S) 0); cbn [negb]; [reflexivity|].
  by rewrite inject_Z_mult.
Qed.




(** The standard model of floating-point arithmetic: [fl] returns its
    argument with a relative error of at most [u]. *)
Section Rounding.
Variable u : Q.
Variable fl : Q -> Q.
Hypothesis u_nonneg : 0 <= u.
Hypothesis u_small : u <= 1 # 4.
Hypothesis fl_error : forall x, 0 <= x -> (1 - u) * x <= fl x /\ fl x <= (1 + u) * x.





Lemma one_minus_u_pos : 0 < 1 - u.
Proof. lra. Qed.















End Rounding.


(** On doubles the bound 100 itself can be exceeded, also when no tick is
    early: with every result rounded up, the late tick leaves 50 and
    50 (1 + u)^3. *)
Lemma rounded_percentages_exceed_100 :
  let fl := round_up unit_roundoff in
  let S := cls (run_fl fl [late_tick] (launched_fl fl)) in
  punctual fl "main.py" 3 [late_tick] (launched_fl fl)
  /\ 100 < n_cpu_percent_python_fl fl S "main.py" 3 + n_cpu_percent_c_fl fl S "main.py" 3.
Proof.
  cbv zeta. split; [|vm_compute; reflexivity].
  cbn [punctual]. split; [|exact I].
  split; [lra|]. intros _. split; [vm_compute; discriminate|].
  intros _ _. vm_compute; discriminate.
Qed.



